(** * MultiView: scenes, projections and detector geometries of the event display

    A shallow embedding of [EventVisualisation/View/src/MultiView.cxx].

    The render engine ([gEve], a [TEveManager]) owns the scenes; the
    [MultiView] object keeps pointers to six of them, owns two projection
    managers and a vector of the detector shapes it has drawn.  Every method
    is a transition of one program state, in a small monad whose outcomes
    are: the method returns, the process calls [exit], or the method
    dereferences an invalid pointer or reads outside an array. *)

From stdpp Require Import base option list strings.
From Stdlib Require Import ZArith Lia.

(** ** Enumerations of [MultiView.h] *)

Inductive EViews := View3d | ViewRphi | ViewZY.

Inductive EScenes :=
  | Scene3dGeom | SceneRphiGeom | SceneZYGeom
  | Scene3dEvent | SceneRphiEvent | SceneZYEvent.

Inductive EProjections := ProjectionRphi | ProjectionZY.

#[global] Instance EViews_eq_dec : EqDecision EViews.
Proof. solve_decision. Defined.
#[global] Instance EScenes_eq_dec : EqDecision EScenes.
Proof. solve_decision. Defined.
#[global] Instance EProjections_eq_dec : EqDecision EProjections.
Proof. solve_decision. Defined.

(** Modelled from the spec: the enumerators of [EScenes] and [EProjections]
    are declared in [MultiView.h].  The construction steps say that the 3D
    geometry and 3D event scenes are the engine's own and that the
    remaining four are newly spawned; the constructor spawns the scenes of
    the slots from [SceneRphiGeom] up to [NumberOfScenes], so the two 3D
    scenes come before [SceneRphiGeom] and the four projected scenes
    follow. *)
Definition sceneIndex (s : EScenes) : nat :=
  match s with
  | Scene3dGeom => 0 | Scene3dEvent => 1 | SceneRphiGeom => 2
  | SceneZYGeom => 3 | SceneRphiEvent => 4 | SceneZYEvent => 5
  end.
Definition NumberOfScenes : nat := 6.

Definition sceneOfIndex (i : nat) : option EScenes :=
  match i with
  | 0 => Some Scene3dGeom | 1 => Some Scene3dEvent | 2 => Some SceneRphiGeom
  | 3 => Some SceneZYGeom | 4 => Some SceneRphiEvent | 5 => Some SceneZYEvent
  | _ => None
  end.

Definition NumberOfProjections : nat := 2.

Definition projectionOfIndex (i : nat) : option EProjections :=
  match i with
  | 0 => Some ProjectionRphi | 1 => Some ProjectionZY | _ => None
  end.

(** ** Render engine objects *)

(** A detector shape: the object's address and its element name. *)
Record TEveGeoShape := mkShape {
  shapeAddress : nat;
  GetElementName : string
}.

#[global] Instance TEveGeoShape_eq_dec : EqDecision TEveGeoShape.
Proof. solve_decision. Defined.

(** Elements handed to the engine: a detector shape, an event element
    (identified by its address) or the axes of a projection.  A value of
    this type is an object; a pointer to an element, which may be null, is
    an [option TEveElement]. *)
Inductive TEveElement :=
  | GeoShape (g : TEveGeoShape)
  | EventElement (address : nat)
  | ProjectionAxes (p : EProjections).

#[global] Instance TEveElement_eq_dec : EqDecision TEveElement.
Proof. solve_decision. Defined.

(** A child of a scene: an element added as it is, or the replica that the
    projection manager in slot [via] made of it at depth [depth]. *)
Inductive SceneChild :=
  | Direct (e : TEveElement)
  | Projected (via : EProjections) (depth : Z) (e : TEveElement).

#[global] Instance SceneChild_eq_dec : EqDecision SceneChild.
Proof. solve_decision. Defined.

(** Pointers to scenes of the engine: its global scene, its event scene, or
    the [k]-th scene spawned so far. *)
Inductive TEveScenePtr :=
  | GlobalScene
  | EventScene
  | SpawnedScene (k : nat).

#[global] Instance TEveScenePtr_eq_dec : EqDecision TEveScenePtr.
Proof. solve_decision. Defined.

Record TEveManager := mkEve {
  fGlobalScene : list SceneChild;
  fEventScene : list SceneChild;
  fSpawned : list (list SceneChild);
  fCurrentEvent : option (list TEveElement)
}.

Inductive TEveProjectionType := kPT_Unknown | kPT_RPhi | kPT_ZY.

(** The depth is a [Float_t] in the engine; the code only stores the
    constants -10 and 0 in it and never computes with it, so an integer
    stands for it. *)
Record TEveProjectionManager := mkProjection {
  fProjectionType : TEveProjectionType;
  fCurrentDepth : Z
}.

(** ** External services *)

(** The geometry manager (a stateful resolver of detector names, [None]
    being a null shape), the configuration flag read by the constructor, and
    the number of visualisation data types of
    [VisualisationConstants.h]. *)
Class Services := {
  GeometryManager : Type;
  getGeometryForDetector :
    GeometryManager → string → option TEveGeoShape * GeometryManager;
  getAxesShow : bool;
  NdataTypes : nat
}.

(** ** Program state *)

Section Model.
Context {svc : Services}.

(** [sInstance] is the static pointer ([None] is [nullptr]); [constructed]
    counts the [MultiView] objects constructed so far, the [k]-th having
    address [k]; the [m...] fields are those of the object [sInstance]
    designates. *)
Record State := mkState {
  sInstance : option nat;
  constructed : nat;
  gEve : TEveManager;
  mScenes : EScenes → TEveScenePtr;
  mProjections : EProjections → TEveProjectionManager;
  mViews : EViews → list TEveScenePtr;
  mDetectors : list (option TEveGeoShape);
  logged : list string;
  geometryManager : GeometryManager
}.

Definition set_sInstance (v : option nat) (w : State) : State :=
  mkState v (constructed w) (gEve w) (mScenes w) (mProjections w) (mViews w)
          (mDetectors w) (logged w) (geometryManager w).
Definition set_constructed (v : nat) (w : State) : State :=
  mkState (sInstance w) v (gEve w) (mScenes w) (mProjections w) (mViews w)
          (mDetectors w) (logged w) (geometryManager w).
Definition set_gEve (v : TEveManager) (w : State) : State :=
  mkState (sInstance w) (constructed w) v (mScenes w) (mProjections w)
          (mViews w) (mDetectors w) (logged w) (geometryManager w).
Definition set_mScenes (v : EScenes → TEveScenePtr) (w : State) : State :=
  mkState (sInstance w) (constructed w) (gEve w) v (mProjections w) (mViews w)
          (mDetectors w) (logged w) (geometryManager w).
Definition set_mProjections (v : EProjections → TEveProjectionManager)
    (w : State) : State :=
  mkState (sInstance w) (constructed w) (gEve w) (mScenes w) v (mViews w)
          (mDetectors w) (logged w) (geometryManager w).
Definition set_mViews (v : EViews → list TEveScenePtr) (w : State) : State :=
  mkState (sInstance w) (constructed w) (gEve w) (mScenes w) (mProjections w)
          v (mDetectors w) (logged w) (geometryManager w).
Definition set_mDetectors (v : list (option TEveGeoShape)) (w : State)
    : State :=
  mkState (sInstance w) (constructed w) (gEve w) (mScenes w) (mProjections w)
          (mViews w) v (logged w) (geometryManager w).
Definition set_logged (v : list string) (w : State) : State :=
  mkState (sInstance w) (constructed w) (gEve w) (mScenes w) (mProjections w)
          (mViews w) (mDetectors w) v (geometryManager w).
Definition set_geometryManager (v : GeometryManager) (w : State) : State :=
  mkState (sInstance w) (constructed w) (gEve w) (mScenes w) (mProjections w)
          (mViews w) (mDetectors w) (logged w) v.

(** ** Outcomes and the method monad *)

Inductive Outcome (A : Type) :=
  | Returned (a : A) (w : State)
  | Exited (code : Z) (w : State)
  | Undefined.
Arguments Returned {A} a w.
Arguments Exited {A} code w.
Arguments Undefined {A}.

Definition M (A : Type) : Type := State → Outcome A.

Definition ret {A} (a : A) : M A := λ w, Returned a w.

Definition bind {A B} (m : M A) (k : A → M B) : M B :=
  λ w, match m w with
       | Returned a w' => k a w'
       | Exited c w' => Exited c w'
       | Undefined => Undefined
       end.

Notation "'let*' x ':=' m 'in' k" := (bind m (λ x, k))
  (at level 10, x name, m at level 100, k at level 200).

Definition gets {A} (f : State → A) : M A := λ w, Returned (f w) w.
Definition modify (f : State → State) : M unit := λ w, Returned tt (f w).
Definition undefined {A} : M A := λ _, Undefined.
Definition exit {A} (code : Z) : M A := λ w, Exited code w.
Definition LOG_error (msg : string) : M unit :=
  modify (λ w, set_logged (logged w ++ [msg]) w).
Definition when (b : bool) (m : M unit) : M unit :=
  if b then m else ret tt.

(** The state in which an outcome leaves the process, if any. *)
Definition finalState {A} (o : Outcome A) : option State :=
  match o with
  | Returned _ w => Some w
  | Exited _ w => Some w
  | Undefined => None
  end.

(** [for (i = from; i < from + count; ++i) body(i)] *)
Fixpoint forRange (from count : nat) (body : nat → M unit) : M unit :=
  match count with
  | 0 => ret tt
  | S count' => let* _ := body from in forRange (S from) count' body
  end.

(** Reading slot [i] of a C array; outside the array the read is
    undefined. *)
Definition readArray {A} (a : list A) (i : nat) : M A :=
  match a !! i with
  | Some x => ret x
  | None => undefined
  end.

(** ** Engine operations used by the file *)

Definition sceneChildren (h : TEveScenePtr) (e : TEveManager)
    : option (list SceneChild) :=
  match h with
  | GlobalScene => Some (fGlobalScene e)
  | EventScene => Some (fEventScene e)
  | SpawnedScene k => fSpawned e !! k
  end.

Definition setSceneChildren (h : TEveScenePtr) (l : list SceneChild)
    (e : TEveManager) : TEveManager :=
  match h with
  | GlobalScene => mkEve l (fEventScene e) (fSpawned e) (fCurrentEvent e)
  | EventScene => mkEve (fGlobalScene e) l (fSpawned e) (fCurrentEvent e)
  | SpawnedScene k =>
      mkEve (fGlobalScene e) (fEventScene e) (<[k := l]> (fSpawned e))
            (fCurrentEvent e)
  end.

(** Replaces the children [l] of the scene [h] by [f l]; through a pointer
    to no scene the access is undefined. *)
Definition withScene (h : TEveScenePtr)
    (f : list SceneChild → list SceneChild) : M unit :=
  λ w, match sceneChildren h (gEve w) with
       | Some l => Returned tt (set_gEve (setSceneChildren h (f l) (gEve w)) w)
       | None => Undefined
       end.

(** [gEve->AddElement(el, parent)] and [parent->AddElement(el)] *)
Definition AddElement (el : TEveElement) (parent : TEveScenePtr) : M unit :=
  withScene parent (λ l, l ++ [Direct el]).

(** The destructor of an element that is a child of [parent] takes it out
    of the children of [parent]. *)
Definition removeChild (el : TEveElement) (l : list SceneChild)
    : list SceneChild :=
  filter (λ c, c ≠ Direct el) l.

Definition destroyLocal (el : TEveElement) (parent : TEveScenePtr) : M unit :=
  withScene parent (removeChild el).

(** [scene->DestroyElements()] *)
Definition DestroyElements (scene : TEveScenePtr) : M unit :=
  withScene scene (λ _, []).

Definition GetGlobalScene : M TEveScenePtr := ret GlobalScene.
Definition GetEventScene : M TEveScenePtr := ret EventScene.

(** [gEve->SpawnNewScene(name, description)]: a new scene without
    children. *)
Definition SpawnNewScene : M TEveScenePtr :=
  λ w, let e := gEve w in
       Returned (SpawnedScene (length (fSpawned e)))
                (set_gEve (mkEve (fGlobalScene e) (fEventScene e)
                                 (fSpawned e ++ [[]]) (fCurrentEvent e)) w).

(** [gEve->GetCurrentEvent()]: [true] when the pointer is not null. *)
Definition GetCurrentEvent : M bool :=
  gets (λ w, match fCurrentEvent (gEve w) with Some _ => true | None => false end).

Definition withCurrentEvent (f : list TEveElement → list TEveElement)
    : M unit :=
  λ w, let e := gEve w in
       match fCurrentEvent e with
       | Some l =>
           Returned tt (set_gEve (mkEve (fGlobalScene e) (fEventScene e)
                                        (fSpawned e) (Some (f l))) w)
       | None => Undefined
       end.

(** [gEve->GetCurrentEvent()->AddElement(el)] *)
Definition CurrentEvent_AddElement (el : TEveElement) : M unit :=
  withCurrentEvent (λ l, l ++ [el]).

(** [gEve->GetCurrentEvent()->RemoveElements()] *)
Definition CurrentEvent_RemoveElements : M unit :=
  withCurrentEvent (λ _, []).

(** A projection manager is designated by the slot of [mProjections] that
    owns it. *)
Definition GetCurrentDepth (projection : EProjections) : M Z :=
  gets (λ w, fCurrentDepth (mProjections w projection)).

Definition SetCurrentDepth (projection : EProjections) (d : Z) : M unit :=
  modify (λ w, set_mProjections
    (λ q, if decide (q = projection)
          then mkProjection (fProjectionType (mProjections w q)) d
          else mProjections w q) w).

Definition SetProjection (projection : EProjections) (t : TEveProjectionType)
    : M unit :=
  modify (λ w, set_mProjections
    (λ q, if decide (q = projection)
          then mkProjection t (fCurrentDepth (mProjections w q))
          else mProjections w q) w).

(** [mProjections[p] = new TEveProjectionManager()] *)
Definition newProjectionManager (p : EProjections) : M unit :=
  modify (λ w, set_mProjections
    (λ q, if decide (q = p) then mkProjection kPT_Unknown 0
          else mProjections w q) w).

(** [projection->ImportElements(el, scene)]: the replica of [el], made at
    the manager's current depth, becomes a child of [scene]. *)
Definition ImportElements (projection : EProjections) (el : TEveElement)
    (scene : TEveScenePtr) : M unit :=
  let* d := GetCurrentDepth projection in
  withScene scene (λ l, l ++ [Projected projection d el]).

(** [GeometryManager::getInstance().getGeometryForDetector(name)] *)
Definition GeometryManager_getGeometryForDetector (detectorName : string)
    : M (option TEveGeoShape) :=
  λ w, let r := getGeometryForDetector (geometryManager w) detectorName in
       Returned (fst r) (set_geometryManager (snd r) w).

(** ** The methods of [MultiView] *)

Definition getScene (scene : EScenes) : M TEveScenePtr :=
  gets (λ w, mScenes w scene).

Definition getProjection (projection : EProjections) : M EProjections :=
  ret projection.

Definition setScenePtr (scene : EScenes) (h : TEveScenePtr) : M unit :=
  modify (λ w, set_mScenes
    (λ s, if decide (s = scene) then h else mScenes w s) w).

(** [NumberOfScenes] is returned for no projection; it is [None] here. *)
Definition getSceneOfProjection (projection : EProjections)
    : option EScenes :=
  if decide (projection = ProjectionRphi) then Some SceneRphiGeom
  else if decide (projection = ProjectionZY) then Some SceneZYGeom
  else None.

(** The three viewers and the scenes each one shows (the window packs, the
    cameras and the two annotations have no state here). *)
Definition setupMultiview : M unit :=
  modify (λ w, set_mViews
    (λ v, match v with
          | View3d => [mScenes w Scene3dGeom; mScenes w Scene3dEvent]
          | ViewRphi => [mScenes w SceneRphiGeom; mScenes w SceneRphiEvent]
          | ViewZY => [mScenes w SceneZYGeom; mScenes w SceneZYEvent]
          end) w).

(** [new MultiView()]: the allocation and the constructor.  The vector
    member of the new object starts empty; the scene names and descriptions
    are not kept.  The axes object is a local of the loop body: it is added
    to the scene and destroyed when the iteration ends. *)
Definition MultiView_new : M unit :=
  let* n := gets constructed in
  let this := S n in
  let* _ := modify (set_constructed this) in
  let* _ := modify (set_mDetectors []) in
  let* g := GetGlobalScene in
  let* _ := setScenePtr Scene3dGeom g in
  let* e := GetEventScene in
  let* _ := setScenePtr Scene3dEvent e in
  let* _ := forRange (sceneIndex SceneRphiGeom)
              (NumberOfScenes - sceneIndex SceneRphiGeom)
              (λ i, match sceneOfIndex i with
                    | Some s => let* h := SpawnNewScene in setScenePtr s h
                    | None => undefined
                    end) in
  let* _ := newProjectionManager ProjectionRphi in
  let* _ := newProjectionManager ProjectionZY in
  let* _ := SetProjection ProjectionRphi kPT_RPhi in
  let* _ := SetProjection ProjectionZY kPT_ZY in
  let* _ := when getAxesShow
              (forRange 0 NumberOfProjections
                 (λ i, match projectionOfIndex i with
                       | Some p =>
                           match getSceneOfProjection p with
                           | Some s =>
                               let* h := getScene s in
                               let* _ := AddElement (ProjectionAxes p) h in
                               destroyLocal (ProjectionAxes p) h
                           | None => undefined
                           end
                       | None => undefined
                       end)) in
  let* _ := setupMultiview in
  modify (set_sInstance (Some this)).

Definition getInstance : M (option nat) :=
  let* inst := gets sInstance in
  let* _ := match inst with
            | None => MultiView_new
            | Some _ => ret tt
            end in
  gets sInstance.

Fixpoint findDetector (detectorName : string)
    (detectors : list (option TEveGeoShape)) : M (option TEveGeoShape) :=
  match detectors with
  | [] => ret None
  | None :: _ => undefined
  | Some geom :: rest =>
      if decide (GetElementName geom = detectorName) then ret (Some geom)
      else findDetector detectorName rest
  end.

Definition getDetectorGeometry (detectorName : string)
    : M (option TEveGeoShape) :=
  let* detectors := gets mDetectors in
  findDetector detectorName detectors.

Definition registerGeometry (geom : option TEveGeoShape)
    (threeD rPhi zy : bool) : M unit :=
  match geom with
  | None =>
      let* _ := LOG_error "MultiView::registerGeometry -- geometry is NULL!" in
      exit (-1)
  | Some g =>
      let* _ := when threeD
                  (let* scene := getScene Scene3dGeom in
                   AddElement (GeoShape g) scene) in
      let* _ := when rPhi
                  (let* projection := getProjection ProjectionRphi in
                   let* _ := SetCurrentDepth projection (-10) in
                   let* scene := getScene SceneRphiGeom in
                   let* _ := ImportElements projection (GeoShape g) scene in
                   SetCurrentDepth projection 0) in
      when zy
        (let* projection := getProjection ProjectionZY in
         let* _ := SetCurrentDepth projection (-10) in
         let* scene := getScene SceneZYGeom in
         let* _ := ImportElements projection (GeoShape g) scene in
         SetCurrentDepth projection 0)
  end.

Definition drawGeometryForDetector (detectorName : string)
    (threeD rPhi zy : bool) : M unit :=
  let* shape := GeometryManager_getGeometryForDetector detectorName in
  let* _ := registerGeometry shape threeD rPhi zy in
  modify (λ w, set_mDetectors (mDetectors w ++ [shape]) w).

Definition destroyAllGeometries : M unit :=
  let* s3d := getScene Scene3dGeom in
  let* _ := DestroyElements s3d in
  let* sRphi := getScene SceneRphiGeom in
  let* _ := DestroyElements sRphi in
  let* sZY := getScene SceneZYGeom in
  let* _ := DestroyElements sZY in
  modify (set_mDetectors []).

(** [MultiView::~MultiView] *)
Definition MultiView_delete : M unit := destroyAllGeometries.

(** [registerElements] and [registerElement] on pointers to valid elements;
    [registerElementsAt] and [registerElementAt] below are the same methods
    on pointers that may be null. *)
Definition registerElements (elements phiElements : list TEveElement)
    : M unit :=
  let* _ := forRange 0 NdataTypes
              (λ dataType,
                 let* event := readArray elements dataType in
                 let* _ := CurrentEvent_AddElement event in
                 let* projection := getProjection ProjectionZY in
                 let* scene := getScene SceneZYEvent in
                 ImportElements projection event scene) in
  forRange 0 NdataTypes
    (λ dataType,
       let* event := readArray phiElements dataType in
       let* projection := getProjection ProjectionRphi in
       let* scene := getScene SceneRphiEvent in
       ImportElements projection event scene).

Definition registerElement (event : TEveElement) : M unit :=
  let* _ := CurrentEvent_AddElement event in
  let* pRphi := getProjection ProjectionRphi in
  let* sRphi := getScene SceneRphiEvent in
  let* _ := ImportElements pRphi event sRphi in
  let* pZY := getProjection ProjectionZY in
  let* sZY := getScene SceneZYEvent in
  ImportElements pZY event sZY.

Definition destroyAllEvents : M unit :=
  let* current := GetCurrentEvent in
  let* _ := when current CurrentEvent_RemoveElements in
  let* sRphi := getScene SceneRphiEvent in
  let* _ := DestroyElements sRphi in
  let* sZY := getScene SceneZYEvent in
  DestroyElements sZY.

(** [gEve->Redraw3D()] only asks the engine to draw. *)
Definition redraw3D : M unit := ret tt.

(** ** Calls made by the application *)

(** A method other than [getInstance] is called on the object [sInstance]
    designates; with no object the call is undefined. *)
Definition onInstance {A} (m : M A) : M unit :=
  let* inst := gets sInstance in
  match inst with
  | Some _ => let* _ := m in ret tt
  | None => undefined
  end.

Inductive Call :=
  | CallGetInstance
  | CallGetDetectorGeometry (detectorName : string)
  | CallDrawGeometryForDetector (detectorName : string) (threeD rPhi zy : bool)
  | CallRegisterGeometry (geom : option TEveGeoShape) (threeD rPhi zy : bool)
  | CallDestroyAllGeometries
  | CallRegisterElements (elements phiElements : list TEveElement)
  | CallRegisterElement (event : TEveElement)
  | CallDestroyAllEvents
  | CallRedraw3D.

Definition exec (c : Call) : M unit :=
  match c with
  | CallGetInstance => let* _ := getInstance in ret tt
  | CallGetDetectorGeometry n => onInstance (getDetectorGeometry n)
  | CallDrawGeometryForDetector n t r z =>
      onInstance (drawGeometryForDetector n t r z)
  | CallRegisterGeometry g t r z => onInstance (registerGeometry g t r z)
  | CallDestroyAllGeometries => onInstance destroyAllGeometries
  | CallRegisterElements e p => onInstance (registerElements e p)
  | CallRegisterElement e => onInstance (registerElement e)
  | CallDestroyAllEvents => onInstance destroyAllEvents
  | CallRedraw3D => onInstance redraw3D
  end.

Fixpoint run (cs : list Call) : M unit :=
  match cs with
  | [] => ret tt
  | c :: cs' => let* _ := exec c in run cs'
  end.

(** The states the application sees: one after each call that returns. *)
Fixpoint observed (cs : list Call) (w : State) : list State :=
  match cs with
  | [] => []
  | c :: cs' =>
      match exec c w with
      | Returned _ w' => w' :: observed cs' w'
      | _ => []
      end
  end.

Definition isDraw (c : Call) : bool :=
  match c with CallDrawGeometryForDetector _ _ _ _ => true | _ => false end.

(** ** Reading a state *)

(** The children of the scene in slot [s]. *)
Definition sceneOf (s : EScenes) (w : State) : option (list SceneChild) :=
  sceneChildren (mScenes w s) (gEve w).

Definition depthOf (p : EProjections) (w : State) : Z :=
  fCurrentDepth (mProjections w p).

(** The six slots point to six different scenes of the engine: what the
    constructor leaves behind. *)
Definition ScenesBound (w : State) : Prop :=
  (∀ s, is_Some (sceneOf s w)) ∧ (∀ s s', mScenes w s = mScenes w s' → s = s').

(** The first shape of a list that carries the name. *)
Fixpoint firstNamed (name : string) (l : list TEveGeoShape)
    : option TEveGeoShape :=
  match l with
  | [] => None
  | g :: rest =>
      if decide (GetElementName g = name) then Some g
      else firstNamed name rest
  end.

(** [m] keeps the relation [R] between the state it starts in and the
    state it leaves the process in, whether it returns or exits. *)
Definition Keeps {A} (R : relation State) (m : M A) : Prop :=
  ∀ w w', finalState (m w) = Some w' → R w w'.

(** What no method but [getInstance] touches: the singleton, the number of
    objects constructed, the scene slots, the viewers, and which scene
    pointers are valid. *)
Definition methodFrame : relation State := λ w w',
  sInstance w' = sInstance w ∧ constructed w' = constructed w ∧
  mScenes w' = mScenes w ∧ mViews w' = mViews w ∧
  ∀ h, is_Some (sceneChildren h (gEve w')) ↔ is_Some (sceneChildren h (gEve w)).

(** The value of [f] is the same in both states. *)
Definition unchanged {B} (f : State → B) : relation State :=
  λ w w', f w' = f w.

(** The eight methods called on the object. *)
Inductive IsMethod : ∀ {A}, M A → Prop :=
  | is_getDetectorGeometry n : IsMethod (getDetectorGeometry n)
  | is_drawGeometryForDetector n t r z :
      IsMethod (drawGeometryForDetector n t r z)
  | is_registerGeometry g t r z : IsMethod (registerGeometry g t r z)
  | is_destroyAllGeometries : IsMethod destroyAllGeometries
  | is_registerElements e p : IsMethod (registerElements e p)
  | is_registerElement e : IsMethod (registerElement e)
  | is_destroyAllEvents : IsMethod destroyAllEvents
  | is_redraw3D : IsMethod redraw3D.

Definition appendIf {A} (b : bool) (x : A) (l : list A) : list A :=
  if b then l ++ [x] else l.

(** What a registration of the shape [g] with the three flags changes
    between [w] and [w']: the three geometry scenes and the two depths. *)
Definition Registered (g : TEveGeoShape) (threeD rPhi zy : bool)
    (w w' : State) : Prop :=
  sceneOf Scene3dGeom w' =
    appendIf threeD (Direct (GeoShape g)) <$> sceneOf Scene3dGeom w ∧
  sceneOf SceneRphiGeom w' =
    appendIf rPhi (Projected ProjectionRphi (-10) (GeoShape g))
      <$> sceneOf SceneRphiGeom w ∧
  sceneOf SceneZYGeom w' =
    appendIf zy (Projected ProjectionZY (-10) (GeoShape g))
      <$> sceneOf SceneZYGeom w ∧
  sceneOf Scene3dEvent w' = sceneOf Scene3dEvent w ∧
  sceneOf SceneRphiEvent w' = sceneOf SceneRphiEvent w ∧
  sceneOf SceneZYEvent w' = sceneOf SceneZYEvent w ∧
  depthOf ProjectionRphi w' = (if rPhi then 0%Z else depthOf ProjectionRphi w) ∧
  depthOf ProjectionZY w' = (if zy then 0%Z else depthOf ProjectionZY w) ∧
  fCurrentEvent (gEve w') = fCurrentEvent (gEve w) ∧
  logged w' = logged w.

(** The depth bracket of a registration into a projected scene, seen from
    outside: the replica of [g] made by the manager in slot [p] entered the
    scene in slot [s] at depth -10, and the manager is left at depth 0,
    which is its depth before the call exactly when that was 0. *)
Definition ImportedAtMinus10 (p : EProjections) (s : EScenes)
    (g : TEveGeoShape) (w w' : State) : Prop :=
  sceneOf s w' = (λ l, l ++ [Projected p (-10) (GeoShape g)]) <$> sceneOf s w ∧
  depthOf p w' = 0%Z ∧
  (depthOf p w' = depthOf p w ↔ depthOf p w = 0%Z).

(** The state of the event scenes while the two loops of
    [registerElements] run: [n] default elements and [m] phi elements have
    been registered since [w]. *)
Definition elementsRegistered (w : State) (cur : list TEveElement)
    (elements phiElements : list TEveElement) (n m : nat) (w' : State)
    : Prop :=
  ScenesBound w' ∧
  fCurrentEvent (gEve w') = Some (cur ++ take n elements) ∧
  sceneOf SceneZYEvent w' =
    (λ l, l ++ map (Projected ProjectionZY (depthOf ProjectionZY w))
                   (take n elements)) <$> sceneOf SceneZYEvent w ∧
  sceneOf SceneRphiEvent w' =
    (λ l, l ++ map (Projected ProjectionRphi (depthOf ProjectionRphi w))
                   (take m phiElements)) <$> sceneOf SceneRphiEvent w ∧
  sceneOf Scene3dEvent w' = sceneOf Scene3dEvent w ∧
  sceneOf Scene3dGeom w' = sceneOf Scene3dGeom w ∧
  sceneOf SceneRphiGeom w' = sceneOf SceneRphiGeom w ∧
  sceneOf SceneZYGeom w' = sceneOf SceneZYGeom w ∧
  mProjections w' = mProjections w ∧
  mDetectors w' = mDetectors w.

(** What no call but a draw or a geometry teardown touches. *)
Definition lookupFrame : relation State := unchanged mDetectors.

Fixpoint countDraws (cs : list Call) : nat :=
  match cs with
  | [] => 0
  | c :: cs' => (if isDraw c then 1 else 0) + countDraws cs'
  end.

(** [c] is a [drawGeometryForDetector] call for the detector [name]. *)
Definition drawsName (name : string) (c : Call) : bool :=
  match c with
  | CallDrawGeometryForDetector n _ _ _ => bool_decide (n = name)
  | _ => false
  end.

(** Modelled from the spec: the geometry manager is not part of this file;
    the shape it resolves for a detector is tagged with that detector's
    name. *)
Definition NamesShapes : Prop :=
  ∀ gm n g, fst (getGeometryForDetector gm n) = Some g → GetElementName g = n.

(** No entry of the lookup list is null or carries the name. *)
Definition NoneNamed (name : string) (l : list (option TEveGeoShape)) : Prop :=
  Forall (λ o, ∃ g, o = Some g ∧ GetElementName g ≠ name) l.

(** The geometry teardown as one update of the state: the three geometry
    scenes and the lookup list are emptied in a single step. *)
Definition geometriesCleared (w : State) : State :=
  set_mDetectors []
    (set_gEve
       (setSceneChildren (mScenes w SceneZYGeom) []
          (setSceneChildren (mScenes w SceneRphiGeom) []
             (setSceneChildren (mScenes w Scene3dGeom) [] (gEve w)))) w).

(** ** Further readings of a state and of a run *)

(** The lookup list holds no null pointer. *)
Definition DetectorsNonNull (w : State) : Prop :=
  Forall is_Some (mDetectors w).

(** An object exists, its scenes are bound, its lookup list holds no null
    pointer and the engine has a current event. *)
Definition WellFormed (w : State) : Prop :=
  is_Some (sInstance w) ∧ ScenesBound w ∧ DetectorsNonNull w ∧
  is_Some (fCurrentEvent (gEve w)).

(** The arrays handed to [registerElements] hold a slot for every data
    type. *)
Definition CallOk (c : Call) : Prop :=
  match c with
  | CallRegisterElements e p => NdataTypes ≤ length e ∧ NdataTypes ≤ length p
  | _ => True
  end.

(** [c] hands a null shape to [registerGeometry]. *)
Definition registersNull (c : Call) : bool :=
  match c with
  | CallRegisterGeometry None _ _ _ => true
  | _ => false
  end.

Definition nullMessage : string :=
  "MultiView::registerGeometry -- geometry is NULL!".

(** [m] logs nothing when it returns, and when it exits it does so with
    code -1 after logging the null-geometry message once. *)
Definition Quiet {A} (m : M A) : Prop :=
  ∀ w, match m w with
       | Returned _ w' => logged w' = logged w
       | Exited c w' => c = (-1)%Z ∧ logged w' = logged w ++ [nullMessage]
       | Undefined => True
       end.

(** A method that finds a current event in the engine leaves one there. *)
Definition eventKept : relation State := λ w w',
  is_Some (fCurrentEvent (gEve w)) → is_Some (fCurrentEvent (gEve w')).

(** The viewer that shows the scene of a slot. *)
Definition viewerOf (s : EScenes) : EViews :=
  match s with
  | Scene3dGeom | Scene3dEvent => View3d
  | SceneRphiGeom | SceneRphiEvent => ViewRphi
  | SceneZYGeom | SceneZYEvent => ViewZY
  end.

(** [registerElement] called once for each element, in order. *)
Fixpoint registerEach (events : list TEveElement) : M unit :=
  match events with
  | [] => ret tt
  | event :: rest => let* _ := registerElement event in registerEach rest
  end.

(** ** Calls with raw element pointers *)











End Model.

Arguments Returned {svc A} a w.
Arguments Exited {svc A} code w.
Arguments Undefined {svc A}.

(** ** A concrete environment *)

(** A geometry manager that numbers the shapes it makes and knows every
    detector but the one with the empty name; axes shown; three data
    types. *)
Definition countingServices : Services := {|
  GeometryManager := nat;
  getGeometryForDetector := λ n name,
    if decide (name = "") then (None, n) else (Some (mkShape n name), S n);
  getAxesShow := true;
  NdataTypes := 3
|}.

(** A process in which no [MultiView] exists yet; the engine has an empty
    current event. *)
Definition processStart : @State countingServices :=
  @mkState countingServices None 0 (mkEve [] [] [] (Some []))
    (λ _, GlobalScene) (λ _, mkProjection kPT_Unknown 0) (λ _, [])
    [] [] 0.

(** The same process once [getInstance] has run. *)
Definition processReady : @State countingServices :=
  match @getInstance countingServices processStart with
  | Returned _ w => w
  | _ => processStart
  end.

(** [processReady] after an outside caller has set the R-Phi manager to
    depth 5 through [getProjection]. *)
Definition processDepth5 : @State countingServices :=
  match @SetCurrentDepth countingServices ProjectionRphi 5 processReady with
  | Returned _ w => w
  | _ => processReady
  end.

Definition tpc : TEveGeoShape := mkShape 0 "TPC".

(** [processReady] after [drawGeometryForDetector("TPC", true, true, true)]. *)
Definition processDrawn : @State countingServices :=
  match @drawGeometryForDetector countingServices "TPC" true true true
          processReady with
  | Returned _ w => w
  | _ => processReady
  end.

(** [processDrawn] on an engine that has no current event. *)
Definition processNoEvent : @State countingServices :=
  let e := gEve processDrawn in
  set_gEve (mkEve (fGlobalScene e) (fEventScene e) (fSpawned e) None)
    processDrawn.

Definition sampleCalls : list Call :=
  [CallDrawGeometryForDetector "TPC" true true true;
   CallRegisterElement (EventElement 40);
   CallDrawGeometryForDetector "ITS" false false false;
   CallDrawGeometryForDetector "TPC" true false false;
   CallGetInstance].

Definition processAfterSample : @State countingServices :=
  match run sampleCalls processReady with
  | Returned _ w => w
  | _ => processReady
  end.

(** The process after the sample calls, its projected event scenes
    holding the replicas of one element, on an engine that has lost its
    current event. *)
Definition processEventsNoCurrent : @State countingServices :=
  let e := gEve processAfterSample in
  set_gEve (mkEve (fGlobalScene e) (fEventScene e) (fSpawned e) None)
    processAfterSample.

Definition sampleElements : list TEveElement :=
  [EventElement 10; EventElement 11; EventElement 12].
Definition samplePhiElements : list TEveElement :=
  [EventElement 20; EventElement 21; EventElement 22].

(** [processDepth5] after
    [registerGeometry(tpc, false, true, false)]. *)
Definition processDepth5Registered : @State countingServices :=
  match @registerGeometry countingServices (Some tpc) false true false
          processDepth5 with
  | Returned _ w => w
  | _ => processDepth5
  end.

(** A run that ends at a detector the manager does not know. *)
Definition nullCalls : list Call :=
  [CallDrawGeometryForDetector "TPC" true true true;
   CallDrawGeometryForDetector "" true true true;
   CallDestroyAllGeometries].

Definition processAfterNull : @State countingServices :=
  match run nullCalls processReady with
  | Exited _ w => w
  | _ => processReady
  end.

(** The first state the application sees in the sample run. *)
Definition processSeenFirst : @State countingServices :=
  match observed sampleCalls processReady with
  | w :: _ => w
  | [] => processReady
  end.

(** [processDrawn] after the sample calls but the first. *)
Definition processAfterLater : @State countingServices :=
  match run (tail sampleCalls) processDrawn with
  | Returned _ w => w
  | _ => processDrawn
  end.

Definition shortElements : list TEveElement := [EventElement 10].







(** * Properties *)

Section Properties.
Context {svc : Services}.

(** ** The scene store *)

Lemma sceneChildren_set_eq h l e :
  sceneChildren h (setSceneChildren h l e) = (λ _, l) <$> sceneChildren h e.
Proof.
  destruct h as [| |k]; simpl; try reflexivity.
  destruct (decide (k < length (fSpawned e))) as [Hk|Hk].
  - rewrite list_lookup_insert_eq by exact Hk.
    apply lookup_lt_is_Some_2 in Hk. destruct Hk as [x ->]. reflexivity.
  - rewrite list_insert_ge by lia.
    rewrite (proj2 (lookup_ge_None _ _)) by lia. reflexivity.
Qed.

Lemma sceneChildren_set_ne h' h l e :
  h' ≠ h → sceneChildren h' (setSceneChildren h l e) = sceneChildren h' e.
Proof.
  intros Hne. destruct h as [| |k], h' as [| |k']; simpl; try congruence.
  apply list_lookup_insert_ne. congruence.
Qed.

Lemma fCurrentEvent_set h l e :
  fCurrentEvent (setSceneChildren h l e) = fCurrentEvent e.
Proof. destruct h; reflexivity. Qed.

Lemma sceneChildren_current h e c :
  sceneChildren h (mkEve (fGlobalScene e) (fEventScene e) (fSpawned e) c) =
  sceneChildren h e.
Proof. destruct h; reflexivity. Qed.

Lemma slot_ne (w : State) s s' :
  (∀ a b, mScenes w a = mScenes w b → a = b) → s ≠ s' →
  mScenes w s ≠ mScenes w s'.
Proof. intros Hd Hne E. apply Hne, Hd, E. Qed.

(** Names the children of the six scenes of a bound state. *)
Ltac bound_slots Hb :=
  let Hv := fresh "Hv" in
  let Hd := fresh "Hd" in
  destruct Hb as [Hv Hd];
  let l3 := fresh "g3d" in let lr := fresh "gRphi" in
  let lz := fresh "gZY" in let e3 := fresh "e3d" in
  let er := fresh "eRphi" in let ez := fresh "eZY" in
  destruct (Hv Scene3dGeom) as [l3 ?];
  destruct (Hv SceneRphiGeom) as [lr ?];
  destruct (Hv SceneZYGeom) as [lz ?];
  destruct (Hv Scene3dEvent) as [e3 ?];
  destruct (Hv SceneRphiEvent) as [er ?];
  destruct (Hv SceneZYEvent) as [ez ?];
  clear Hv; unfold sceneOf in *.

(** Reads a scene through the updates made to the engine. *)
Ltac read_scenes :=
  repeat first
    [ rewrite sceneChildren_set_eq
    | rewrite sceneChildren_set_ne by (apply slot_ne; [assumption|discriminate])
    | rewrite fCurrentEvent_set
    | rewrite sceneChildren_current
    | match goal with
      | E : sceneChildren ?h (gEve ?w) = Some _ |- context [sceneChildren ?h (gEve ?w)] =>
          rewrite E
      end
    | progress simpl ].

Ltac run_method :=
  repeat (progress unfold getDetectorGeometry, registerGeometry,
    drawGeometryForDetector, destroyAllGeometries, registerElements,
    registerElement, destroyAllEvents, redraw3D, getScene, getProjection,
    AddElement, DestroyElements, ImportElements, GetCurrentDepth,
    SetCurrentDepth, GetCurrentEvent, CurrentEvent_AddElement,
    CurrentEvent_RemoveElements, LOG_error, withCurrentEvent,
    bind, when, ret, gets, modify, exit, withScene, sceneOf, depthOf in *);
  simpl in *; read_scenes.

(** ** What a method keeps *)

#[local] Instance unchanged_preorder {B} (f : State → B) : PreOrder (unchanged f).
Proof. split; unfold unchanged; [intros w|intros a b c]; congruence. Qed.

#[local] Instance methodFrame_preorder : PreOrder methodFrame.
Proof.
  split.
  - intros w. unfold methodFrame. tauto.
  - intros a b c (?&?&?&?&Hab) (?&?&?&?&Hbc).
    repeat split; try congruence; intros Hh.
    + apply Hab, Hbc, Hh.
    + apply Hbc, Hab, Hh.
Qed.

Section Keeping.
Context (R : relation State) `{!PreOrder R}.

Lemma keeps_ret {A} (a : A) : Keeps R (ret a).
Proof. intros w w' [= <-]. reflexivity. Qed.

Lemma keeps_gets {A} (f : State → A) : Keeps R (gets f).
Proof. intros w w' [= <-]. reflexivity. Qed.

Lemma keeps_undefined {A} : Keeps R (@undefined _ A).
Proof. intros w w' [=]. Qed.

Lemma keeps_exit {A} c : Keeps R (@exit _ A c).
Proof. intros w w' [= <-]. reflexivity. Qed.

Lemma keeps_modify f : (∀ w, R w (f w)) → Keeps R (modify f).
Proof. intros Hf w w' [= <-]. apply Hf. Qed.

Lemma keeps_bind {A B} (m : M A) (k : A → M B) :
  Keeps R m → (∀ a, Keeps R (k a)) → Keeps R (bind m k).
Proof.
  intros Hm Hk w w'. unfold bind.
  destruct (m w) as [a w1|c w1|] eqn:E; simpl.
  - intros Hw'. transitivity w1.
    + apply Hm. rewrite E. reflexivity.
    + apply (Hk a). exact Hw'.
  - intros [= <-]. apply Hm. rewrite E. reflexivity.
  - intros [=].
Qed.

Lemma keeps_when b m : Keeps R m → Keeps R (when b m).
Proof. destruct b; simpl; [trivial|intros _; apply keeps_ret]. Qed.

Lemma keeps_forRange from count body :
  (∀ i, Keeps R (body i)) → Keeps R (forRange from count body).
Proof.
  intros Hb. revert from.
  induction count as [|n IH]; intros from; simpl.
  - apply keeps_ret.
  - apply keeps_bind; [apply Hb|intros _; apply IH].
Qed.

Lemma keeps_readArray {A} (a : list A) i : Keeps R (readArray a i).
Proof.
  unfold readArray. destruct (a !! i); [apply keeps_ret|apply keeps_undefined].
Qed.

Lemma keeps_withScene h f :
  (∀ w l, sceneChildren h (gEve w) = Some l →
          R w (set_gEve (setSceneChildren h (f l) (gEve w)) w)) →
  Keeps R (withScene h f).
Proof.
  intros Hf w w'. unfold withScene.
  destruct (sceneChildren h (gEve w)) as [l|] eqn:E; simpl; [|intros [=]].
  intros [= <-]. apply Hf, E.
Qed.

Lemma keeps_withCurrentEvent f :
  (∀ w l, fCurrentEvent (gEve w) = Some l →
          R w (set_gEve (mkEve (fGlobalScene (gEve w)) (fEventScene (gEve w))
                               (fSpawned (gEve w)) (Some (f l))) w)) →
  Keeps R (withCurrentEvent f).
Proof.
  intros Hf w w'. unfold withCurrentEvent.
  destruct (fCurrentEvent (gEve w)) as [l|] eqn:E; simpl; [|intros [=]].
  intros [= <-]. apply Hf, E.
Qed.

Lemma keeps_resolve n :
  (∀ w gm, R w (set_geometryManager gm w)) →
  Keeps R (GeometryManager_getGeometryForDetector n).
Proof. intros Hf w w' [= <-]. apply Hf. Qed.

End Keeping.

(** Splits a method into its primitive steps, leaving one goal for each
    step that writes to the state. *)
Ltac unfold_methods :=
  unfold getDetectorGeometry, registerGeometry, drawGeometryForDetector,
    destroyAllGeometries, registerElements, registerElement, destroyAllEvents,
    redraw3D, getScene, getProjection, AddElement, DestroyElements,
    ImportElements, GetCurrentDepth, SetCurrentDepth, GetCurrentEvent,
    CurrentEvent_AddElement, CurrentEvent_RemoveElements, LOG_error.

Ltac keeps_with l := apply l; try solve [apply _].

Ltac keeps_steps :=
  repeat first
    [ keeps_with keeps_bind; [|intros ?]
    | keeps_with keeps_ret | keeps_with keeps_gets
    | keeps_with keeps_undefined | keeps_with keeps_exit
    | keeps_with keeps_readArray | keeps_with keeps_when
    | keeps_with keeps_forRange; intros ?
    | keeps_with keeps_withScene; intros ? ? ?
    | keeps_with keeps_withCurrentEvent; intros ? ? ?
    | keeps_with keeps_resolve; intros ? ?
    | keeps_with keeps_modify; intros ?
    | match goal with |- Keeps _ (match ?x with _ => _ end) => destruct x end
    | progress unfold_methods
    | assumption ].

Lemma keeps_findDetector R `{!PreOrder R} n l : Keeps R (findDetector n l).
Proof.
  induction l as [|[g|] l IH]; simpl.
  - keeps_with keeps_ret.
  - destruct (decide _); [keeps_with keeps_ret|apply IH].
  - keeps_with keeps_undefined.
Qed.

Lemma methodFrame_set_scene w h l :
  methodFrame w (set_gEve (setSceneChildren h l (gEve w)) w).
Proof.
  repeat split; simpl; intros Hh.
  - destruct (decide (h0 = h)) as [->|Hne].
    + rewrite sceneChildren_set_eq in Hh.
      destruct (sceneChildren h (gEve w)); [eauto|destruct Hh; discriminate].
    + rewrite sceneChildren_set_ne in Hh by exact Hne. exact Hh.
  - destruct (decide (h0 = h)) as [->|Hne].
    + rewrite sceneChildren_set_eq. destruct Hh as [x ->]. simpl. eauto.
    + rewrite sceneChildren_set_ne by exact Hne. exact Hh.
Qed.

Lemma method_keeps_frame {A} (m : M A) : IsMethod m → Keeps methodFrame m.
Proof.
  destruct 1; unfold_methods; keeps_steps;
    try keeps_with keeps_findDetector;
    try apply methodFrame_set_scene;
    try (repeat split; simpl; tauto).
Qed.

Lemma bound_kept w w' : methodFrame w w' → ScenesBound w → ScenesBound w'.
Proof.
  intros (_&_&Hs&_&Hv) [Hv0 Hd]. unfold ScenesBound, sceneOf.
  rewrite Hs. split; [|exact Hd].
  intros s. apply Hv, Hv0.
Qed.

(** ** Geometry registration *)

Lemma registerGeometry_registers w g t r z :
  ScenesBound w →
  ∃ w', registerGeometry (Some g) t r z w = Returned tt w' ∧
        Registered g t r z w w' ∧ ScenesBound w' ∧
        mDetectors w' = mDetectors w ∧
        geometryManager w' = geometryManager w ∧
        mScenes w' = mScenes w.
Proof.
  intros Hb.
  assert (Hk := method_keeps_frame _ (is_registerGeometry (Some g) t r z) w).
  pose proof Hb as Hb'. bound_slots Hb.
  unfold registerGeometry in *.
  destruct t, r, z; run_method; (eexists; split; [reflexivity|]);
    (split; [|split; [eapply bound_kept; [apply Hk; run_method; reflexivity|exact Hb']|auto]]);
    unfold Registered; run_method; auto 12.
Qed.

Lemma drawGeometryForDetector_draws w n g t r z :
  ScenesBound w →
  fst (getGeometryForDetector (geometryManager w) n) = Some g →
  ∃ w', drawGeometryForDetector n t r z w = Returned tt w' ∧
        Registered g t r z w w' ∧ ScenesBound w' ∧
        mDetectors w' = mDetectors w ++ [Some g] ∧
        geometryManager w' =
          snd (getGeometryForDetector (geometryManager w) n).
Proof.
  intros Hb Hg.
  set (w1 := set_geometryManager
               (snd (getGeometryForDetector (geometryManager w) n)) w).
  destruct (registerGeometry_registers w1 g t r z Hb)
    as (w2 & Hr & Hreg & Hb2 & Hd & Hgm & Hs).
  exists (set_mDetectors (mDetectors w2 ++ [Some g]) w2).
  unfold drawGeometryForDetector, GeometryManager_getGeometryForDetector,
    bind, modify. rewrite Hg. fold w1. rewrite Hr.
  repeat split; try apply Hreg; try apply Hb2; simpl.
  - rewrite Hd. reflexivity.
  - exact Hgm.
Qed.

Lemma registered_bracket g t r z w w' :
  Registered g t r z w w' →
  (r = true → ImportedAtMinus10 ProjectionRphi SceneRphiGeom g w w') ∧
  (z = true → ImportedAtMinus10 ProjectionZY SceneZYGeom g w w').
Proof.
  intros (_ & Sr & Sz & _ & _ & _ & Dr & Dz & _).
  split; intros ->; simpl in *; unfold ImportedAtMinus10.
  - rewrite Dr. split; [exact Sr|]. split; [reflexivity|]. split; congruence.
  - rewrite Dz. split; [exact Sz|]. split; [reflexivity|]. split; congruence.
Qed.

(** C1 (amended): a registration of a non-null shape with the R-Phi flag
    set, through [registerGeometry] or [drawGeometryForDetector], returns;
    the shape's replica enters the R-Phi geometry scene at depth -10 and
    the R-Phi manager is left at depth 0 whatever its depth was before, so
    the depth after the call is the depth before it exactly when that was 0.
    The same holds for the Z-Y flag, manager and scene. *)
Theorem registration_leaves_depth_zero w g t r z :
  ScenesBound w →
  (∃ w1, registerGeometry (Some g) t r z w = Returned tt w1 ∧
         (r = true → ImportedAtMinus10 ProjectionRphi SceneRphiGeom g w w1) ∧
         (z = true → ImportedAtMinus10 ProjectionZY SceneZYGeom g w w1)) ∧
  (∀ n, fst (getGeometryForDetector (geometryManager w) n) = Some g →
        ∃ w2, drawGeometryForDetector n t r z w = Returned tt w2 ∧
              (r = true →
               ImportedAtMinus10 ProjectionRphi SceneRphiGeom g w w2) ∧
              (z = true →
               ImportedAtMinus10 ProjectionZY SceneZYGeom g w w2)).
Proof.
  intros Hb. split.
  - destruct (registerGeometry_registers w g t r z Hb) as (w1 & E1 & R1 & _).
    exists w1. split; [exact E1|]. exact (registered_bracket _ _ _ _ _ _ R1).
  - intros n Hg.
    destruct (drawGeometryForDetector_draws w n g t r z Hb Hg)
      as (w2 & E2 & R2 & _).
    exists w2. split; [exact E2|]. exact (registered_bracket _ _ _ _ _ _ R2).
Qed.

(** C2: with a null shape [registerGeometry] logs the error and exits with
    code -1, the state otherwise as it was; [drawGeometryForDetector] does
    the same when the geometry manager resolves no shape, before anything
    is appended to the lookup list; and a registration that returns was
    given a shape. *)
Theorem null_shape_exits w n t r z :
  let msg := "MultiView::registerGeometry -- geometry is NULL!" in
  registerGeometry None t r z w = Exited (-1) (set_logged (logged w ++ [msg]) w)
  ∧ (fst (getGeometryForDetector (geometryManager w) n) = None →
     ∃ w', drawGeometryForDetector n t r z w = Exited (-1) w' ∧
           logged w' = logged w ++ [msg] ∧
           gEve w' = gEve w ∧ mDetectors w' = mDetectors w ∧
           mScenes w' = mScenes w ∧ mProjections w' = mProjections w)
  ∧ (∀ geom w', registerGeometry geom t r z w = Returned tt w' →
                is_Some geom).
Proof.
  intros msg. split; [reflexivity|]. split.
  - intros Hn. eexists.
    unfold drawGeometryForDetector, GeometryManager_getGeometryForDetector.
    unfold bind at 1. rewrite Hn. split; [reflexivity|].
    simpl. auto.
  - intros [g|] w' Hr; [eauto|discriminate].
Qed.

(** C7: a registration of a non-null shape with only the 3D flag set
    leaves the R-Phi and Z-Y geometry scenes as they were and adds the shape
    to the 3D geometry scene; through [drawGeometryForDetector] the shape is
    also appended to the lookup list. *)
Theorem threeD_only_keeps_projected_geometry w g :
  ScenesBound w →
  (∃ w1, registerGeometry (Some g) true false false w = Returned tt w1 ∧
         sceneOf SceneRphiGeom w1 = sceneOf SceneRphiGeom w ∧
         sceneOf SceneZYGeom w1 = sceneOf SceneZYGeom w ∧
         sceneOf Scene3dGeom w1 =
           (λ l, l ++ [Direct (GeoShape g)]) <$> sceneOf Scene3dGeom w ∧
         mDetectors w1 = mDetectors w) ∧
  (∀ n, fst (getGeometryForDetector (geometryManager w) n) = Some g →
        ∃ w2, drawGeometryForDetector n true false false w = Returned tt w2 ∧
              sceneOf SceneRphiGeom w2 = sceneOf SceneRphiGeom w ∧
              sceneOf SceneZYGeom w2 = sceneOf SceneZYGeom w ∧
              sceneOf Scene3dGeom w2 =
                (λ l, l ++ [Direct (GeoShape g)]) <$> sceneOf Scene3dGeom w ∧
              mDetectors w2 = mDetectors w ++ [Some g]).
Proof.
  intros Hb.
  assert (Hopt : ∀ o : option (list SceneChild), (λ l, l) <$> o = o)
    by (intros [?|]; reflexivity).
  split.
  - destruct (registerGeometry_registers w g true false false Hb)
      as (w1 & E1 & (S3 & Sr & Sz & _) & _ & D1 & _).
    exists w1. simpl in *. rewrite Sr, Sz, S3, !Hopt. auto.
  - intros n Hg.
    destruct (drawGeometryForDetector_draws w n g true false false Hb Hg)
      as (w2 & E2 & (S3 & Sr & Sz & _) & _ & D2 & _).
    exists w2. simpl in *. rewrite Sr, Sz, S3, !Hopt. auto.
Qed.

(** ** Calls and runs *)

Lemma getInstance_existing w a :
  sInstance w = Some a → getInstance w = Returned (Some a) w.
Proof.
  intros E. unfold getInstance, bind, gets, ret. rewrite E. simpl.
  rewrite E. reflexivity.
Qed.

Lemma onInstance_returns {A} (m : M A) w w' :
  onInstance m w = Returned tt w' →
  is_Some (sInstance w) ∧ ∃ a, m w = Returned a w'.
Proof.
  unfold onInstance, bind, gets, ret, undefined.
  destruct (sInstance w) as [i|]; [|discriminate].
  destruct (m w) as [a w1| |]; try discriminate.
  intros [= <-]. eauto.
Qed.

Lemma onInstance_keeps {A} R `{!PreOrder R} (m : M A) :
  Keeps R m → Keeps R (onInstance m).
Proof.
  intros Hm. unfold onInstance. keeps_steps.
Qed.

Lemma exec_keeps_frame c w w' :
  is_Some (sInstance w) → finalState (exec c w) = Some w' → methodFrame w w'.
Proof.
  intros [a Ha].
  destruct c; simpl;
    try (apply onInstance_keeps; [apply _|]; apply method_keeps_frame;
         constructor).
  unfold bind. rewrite (getInstance_existing w a Ha). simpl.
  intros [= <-]. reflexivity.
Qed.

Lemma frame_instance w w' :
  methodFrame w w' → is_Some (sInstance w) → is_Some (sInstance w').
Proof. intros (E & _) Hi. rewrite E. exact Hi. Qed.

(** Every state the application sees was left by the call at that position,
    started in a state with an object and bound scenes. *)
Lemma observed_after cs : ∀ w i w',
  is_Some (sInstance w) → ScenesBound w →
  observed cs w !! i = Some w' →
  ∃ c w0, cs !! i = Some c ∧ exec c w0 = Returned tt w' ∧
          is_Some (sInstance w0) ∧ ScenesBound w0.
Proof.
  induction cs as [|c cs IH]; intros w i w' Hi Hb; simpl; [discriminate|].
  destruct (exec c w) as [[] w1| |] eqn:E; try discriminate.
  assert (Hf : methodFrame w w1) by (apply (exec_keeps_frame c); [|rewrite E]; done).
  destruct i as [|i]; simpl.
  - intros [= <-]. exists c, w. auto.
  - intros Hw'. apply (IH w1 i w'); eauto using frame_instance, bound_kept.
Qed.

(** ** Teardown *)

Lemma destroyAllGeometries_cleared w :
  ScenesBound w →
  destroyAllGeometries w = Returned tt (geometriesCleared w) ∧
  mDetectors (geometriesCleared w) = [] ∧
  sceneOf Scene3dGeom (geometriesCleared w) = Some [] ∧
  sceneOf SceneRphiGeom (geometriesCleared w) = Some [] ∧
  sceneOf SceneZYGeom (geometriesCleared w) = Some [].
Proof.
  intros Hb. bound_slots Hb. unfold geometriesCleared.
  run_method. auto.
Qed.

(** C4: on an object with bound scenes [destroyAllGeometries] returns, and
    the state it returns is the single update [geometriesCleared]: the
    lookup list and the 3D, R-Phi and Z-Y geometry scenes are all empty in
    it.  In every run of calls, the state the application sees after a
    [destroyAllGeometries] call has the list and the three scenes empty
    together. *)
Theorem destroyAllGeometries_clears_together w :
  ScenesBound w →
  destroyAllGeometries w = Returned tt (geometriesCleared w) ∧
  mDetectors (geometriesCleared w) = [] ∧
  sceneOf Scene3dGeom (geometriesCleared w) = Some [] ∧
  sceneOf SceneRphiGeom (geometriesCleared w) = Some [] ∧
  sceneOf SceneZYGeom (geometriesCleared w) = Some [] ∧
  ∀ cs i w',
    is_Some (sInstance w) →
    cs !! i = Some CallDestroyAllGeometries →
    observed cs w !! i = Some w' →
    mDetectors w' = [] ∧ sceneOf Scene3dGeom w' = Some [] ∧
    sceneOf SceneRphiGeom w' = Some [] ∧ sceneOf SceneZYGeom w' = Some [].
Proof.
  intros Hb.
  destruct (destroyAllGeometries_cleared w Hb) as (E & D & S3 & Sr & Sz).
  repeat (split; [assumption|]).
  intros cs i w' Hi Hc Ho.
  destruct (observed_after cs w i w' Hi Hb Ho) as (c & w0 & Hc' & Hx & _ & Hb0).
  rewrite Hc in Hc'. injection Hc' as <-. simpl in Hx.
  apply onInstance_returns in Hx. destruct Hx as (_ & [] & Hx).
  destruct (destroyAllGeometries_cleared w0 Hb0) as (E0 & ?).
  rewrite E0 in Hx. injection Hx as <-. assumption.
Qed.

(** C10: [destroyAllEvents] returns whether or not the engine has a current
    event; both projected event scenes are empty afterwards, the current
    event (if any) has no elements, and the lookup list, the three geometry
    scenes and the depths of both projection managers are as before. *)
Theorem destroyAllEvents_clears_projected_events w :
  ScenesBound w →
  ∃ w', destroyAllEvents w = Returned tt w' ∧
        sceneOf SceneRphiEvent w' = Some [] ∧
        sceneOf SceneZYEvent w' = Some [] ∧
        fCurrentEvent (gEve w') = (λ _, []) <$> fCurrentEvent (gEve w) ∧
        mDetectors w' = mDetectors w ∧
        sceneOf Scene3dGeom w' = sceneOf Scene3dGeom w ∧
        sceneOf SceneRphiGeom w' = sceneOf SceneRphiGeom w ∧
        sceneOf SceneZYGeom w' = sceneOf SceneZYGeom w ∧
        depthOf ProjectionRphi w' = depthOf ProjectionRphi w ∧
        depthOf ProjectionZY w' = depthOf ProjectionZY w.
Proof.
  intros Hb. bound_slots Hb.
  destruct (fCurrentEvent (gEve w)) as [cur|] eqn:Ec;
    run_method; rewrite ?Ec; run_method;
    (eexists; split; [reflexivity|]); run_method; rewrite ?Ec; auto 12.
Qed.

(** ** Event registration *)

Lemma forRange_invariant (I : nat → State → Prop) body count : ∀ from w,
  (∀ i w1, from ≤ i < from + count → I i w1 →
           ∃ w2, body i w1 = Returned tt w2 ∧ I (S i) w2) →
  I from w →
  ∃ w', forRange from count body w = Returned tt w' ∧ I (from + count) w'.
Proof.
  induction count as [|k IH]; intros from w Hbody Hi; simpl.
  - exists w. rewrite Nat.add_0_r. auto.
  - destruct (Hbody from w ltac:(lia) Hi) as (w2 & E2 & Hi2).
    unfold bind. rewrite E2.
    destruct (IH (S from) w2) as (w' & E' & Hi'); [|exact Hi2|].
    + intros i w1 Hr. apply Hbody. lia.
    + exists w'. split; [exact E'|].
      replace (from + S k) with (S from + k) by lia. exact Hi'.
Qed.

Lemma elementsRegistered_start w cur els phis :
  ScenesBound w → fCurrentEvent (gEve w) = Some cur →
  elementsRegistered w cur els phis 0 0 w.
Proof.
  intros Hb Hc. pose proof Hb as Hb'. bound_slots Hb.
  unfold elementsRegistered, sceneOf. rewrite Hc. simpl.
  repeat match goal with
         | E : sceneChildren _ _ = Some _ |- _ => rewrite E; clear E
         end.
  simpl. rewrite !app_nil_r. auto 12.
Qed.

(** One import through the manager in slot [p] into the scene in slot
    [s]. *)
Lemma import_step w p s x :
  ScenesBound w →
  ∃ w', bind (getProjection p)
          (λ projection, bind (getScene s)
             (λ scene, ImportElements projection x scene)) w
        = Returned tt w' ∧
        ScenesBound w' ∧
        sceneOf s w' = (λ l, l ++ [Projected p (depthOf p w) x]) <$> sceneOf s w ∧
        (∀ s', s' ≠ s → sceneOf s' w' = sceneOf s' w) ∧
        fCurrentEvent (gEve w') = fCurrentEvent (gEve w) ∧
        mProjections w' = mProjections w ∧
        mDetectors w' = mDetectors w.
Proof.
  intros Hb. destruct (proj1 Hb s) as [l Hl].
  exists (set_gEve (setSceneChildren (mScenes w s)
                      (l ++ [Projected p (depthOf p w) x]) (gEve w)) w).
  unfold sceneOf in Hl.
  split.
  { unfold bind, getProjection, getScene, ImportElements, GetCurrentDepth,
      bind, gets, ret, withScene. simpl. rewrite Hl. reflexivity. }
  split; [eapply bound_kept; [apply methodFrame_set_scene|exact Hb]|].
  unfold sceneOf. simpl.
  rewrite sceneChildren_set_eq, Hl, fCurrentEvent_set.
  repeat split.
  intros s' Hne. apply sceneChildren_set_ne, slot_ne; [apply Hb|exact Hne].
Qed.

Lemma current_event_step w x cur :
  ScenesBound w → fCurrentEvent (gEve w) = Some cur →
  ∃ w', CurrentEvent_AddElement x w = Returned tt w' ∧
        ScenesBound w' ∧
        fCurrentEvent (gEve w') = Some (cur ++ [x]) ∧
        (∀ s, sceneOf s w' = sceneOf s w) ∧
        mProjections w' = mProjections w ∧
        mDetectors w' = mDetectors w.
Proof.
  intros Hb Hc. eexists.
  unfold CurrentEvent_AddElement, withCurrentEvent. rewrite Hc.
  split; [reflexivity|].
  assert (Hs : ∀ s, sceneOf s (set_gEve
                 (mkEve (fGlobalScene (gEve w)) (fEventScene (gEve w))
                        (fSpawned (gEve w)) (Some (cur ++ [x]))) w)
               = sceneOf s w)
    by (intros s; unfold sceneOf; simpl; apply sceneChildren_current).
  split.
  { destruct Hb as [Hv Hd]. split; [|exact Hd].
    intros s. rewrite Hs. apply Hv. }
  simpl. auto.
Qed.

Lemma registerElements_registers w els phis cur :
  ScenesBound w → fCurrentEvent (gEve w) = Some cur →
  NdataTypes ≤ length els → NdataTypes ≤ length phis →
  ∃ w', registerElements els phis w = Returned tt w' ∧
        elementsRegistered w cur els phis NdataTypes NdataTypes w'.
Proof.
  intros Hb Hc Hle Hlp.
  unfold registerElements. unfold bind at 1.
  match goal with
  | |- context [forRange 0 NdataTypes ?b w] =>
      destruct (forRange_invariant
                  (λ i w1, elementsRegistered w cur els phis i 0 w1)
                  b NdataTypes 0 w) as (w1 & E1 & I1)
  end.
  - intros i wi Hi (Hbi & Hci & Hzy & Hrphi & H3e & H3g & Hrg & Hzg & Hp & Hd).
    destruct (lookup_lt_is_Some_2 els i ltac:(lia)) as [x Hx].
    unfold readArray. rewrite Hx. unfold bind at 1, ret.
    destruct (current_event_step wi x _ Hbi Hci)
      as (w2 & E2 & Hb2 & Hc2 & Hs2 & Hp2 & Hd2).
    unfold bind at 1. rewrite E2.
    destruct (import_step w2 ProjectionZY SceneZYEvent x Hb2)
      as (w3 & E3 & Hb3 & Hs3 & Ho3 & Hc3 & Hp3 & Hd3).
    exists w3. split; [exact E3|].
    unfold elementsRegistered.
    rewrite Hs3, !Ho3, !Hs2, Hc3, Hc2, Hp3, Hp2, Hd3, Hd2 by discriminate.
    rewrite (take_S_r els i x Hx), List.map_app, Hzy.
    unfold depthOf. rewrite Hp2, Hp. simpl.
    destruct (sceneOf SceneZYEvent w); simpl; rewrite ?app_assoc; auto 12.
  - apply elementsRegistered_start; assumption.
  - rewrite E1. simpl in I1.
    match goal with
    | |- context [forRange 0 NdataTypes ?b w1] =>
        destruct (forRange_invariant
                    (λ i w2, elementsRegistered w cur els phis NdataTypes i w2)
                    b NdataTypes 0 w1) as (w2 & E2 & I2)
    end.
    + intros i wi Hi (Hbi & Hci & Hzy & Hrphi & H3e & H3g & Hrg & Hzg & Hp & Hd).
      destruct (lookup_lt_is_Some_2 phis i ltac:(lia)) as [x Hx].
      unfold readArray. rewrite Hx. unfold bind at 1, ret.
      destruct (import_step wi ProjectionRphi SceneRphiEvent x Hbi)
        as (w3 & E3 & Hb3 & Hs3 & Ho3 & Hc3 & Hp3 & Hd3).
      exists w3. split; [exact E3|].
      unfold elementsRegistered.
      rewrite Hs3, !Ho3, Hc3, Hp3, Hd3 by discriminate.
      rewrite (take_S_r phis i x Hx), List.map_app, Hrphi.
      unfold depthOf. rewrite Hp. simpl.
      destruct (sceneOf SceneRphiEvent w); simpl; rewrite ?app_assoc; auto 12.
    + exact I1.
    + exists w2. split; [exact E2|exact I2].
Qed.

Lemma registerElement_registers w e cur :
  ScenesBound w → fCurrentEvent (gEve w) = Some cur →
  ∃ w', registerElement e w = Returned tt w' ∧
        fCurrentEvent (gEve w') = Some (cur ++ [e]) ∧
        sceneOf SceneRphiEvent w' =
          (λ l, l ++ [Projected ProjectionRphi (depthOf ProjectionRphi w) e])
            <$> sceneOf SceneRphiEvent w ∧
        sceneOf SceneZYEvent w' =
          (λ l, l ++ [Projected ProjectionZY (depthOf ProjectionZY w) e])
            <$> sceneOf SceneZYEvent w ∧
        mProjections w' = mProjections w.
Proof.
  intros Hb Hc. bound_slots Hb.
  run_method. rewrite Hc. run_method.
  eexists. split; [reflexivity|]. run_method. auto.
Qed.

Lemma event_registration_keeps_projections :
  (∀ els phis, Keeps (unchanged mProjections) (registerElements els phis)) ∧
  (∀ e, Keeps (unchanged mProjections) (registerElement e)).
Proof.
  split; intros; unfold_methods; keeps_steps; reflexivity.
Qed.

(** C6: with a current event in the engine and two arrays of [NdataTypes]
    elements each, [registerElements] returns; the default elements have
    been added, in order, to the current event and their replicas, made by
    the Z-Y manager, to the Z-Y event scene; the replicas of the phi
    elements, made by the R-Phi manager, have been added to the R-Phi event
    scene; the other four scenes are as before. *)
Theorem registerElements_fills_event_scenes w els phis cur :
  ScenesBound w → fCurrentEvent (gEve w) = Some cur →
  length els = NdataTypes → length phis = NdataTypes →
  ∃ w', registerElements els phis w = Returned tt w' ∧
        fCurrentEvent (gEve w') = Some (cur ++ els) ∧
        sceneOf SceneZYEvent w' =
          (λ l, l ++ map (Projected ProjectionZY (depthOf ProjectionZY w)) els)
            <$> sceneOf SceneZYEvent w ∧
        sceneOf SceneRphiEvent w' =
          (λ l, l ++ map (Projected ProjectionRphi (depthOf ProjectionRphi w))
                         phis)
            <$> sceneOf SceneRphiEvent w ∧
        sceneOf Scene3dEvent w' = sceneOf Scene3dEvent w ∧
        sceneOf Scene3dGeom w' = sceneOf Scene3dGeom w ∧
        sceneOf SceneRphiGeom w' = sceneOf SceneRphiGeom w ∧
        sceneOf SceneZYGeom w' = sceneOf SceneZYGeom w.
Proof.
  intros Hb Hc Hle Hlp.
  destruct (registerElements_registers w els phis cur Hb Hc)
    as (w' & E & _ & R); [lia|lia|].
  exists w'. split; [exact E|].
  rewrite (take_ge els), (take_ge phis) in R by lia. tauto.
Qed.

(** C8: neither [registerElements] nor [registerElement] changes a
    projection manager, in whatever state it leaves the process; when the
    engine has a current event (and the arrays hold [NdataTypes] elements)
    each returns, with both depths as before the call and every replica
    made at the depth its manager had when the call began. *)
Theorem event_registration_keeps_depth w els phis e cur :
  ScenesBound w → fCurrentEvent (gEve w) = Some cur →
  NdataTypes ≤ length els → NdataTypes ≤ length phis →
  (∀ w0 w', finalState (registerElements els phis w0) = Some w' ∨
            finalState (registerElement e w0) = Some w' →
            mProjections w' = mProjections w0) ∧
  (∃ w', registerElement e w = Returned tt w' ∧
         depthOf ProjectionRphi w' = depthOf ProjectionRphi w ∧
         depthOf ProjectionZY w' = depthOf ProjectionZY w ∧
         sceneOf SceneRphiEvent w' =
           (λ l, l ++ [Projected ProjectionRphi (depthOf ProjectionRphi w) e])
             <$> sceneOf SceneRphiEvent w ∧
         sceneOf SceneZYEvent w' =
           (λ l, l ++ [Projected ProjectionZY (depthOf ProjectionZY w) e])
             <$> sceneOf SceneZYEvent w) ∧
  (∃ w', registerElements els phis w = Returned tt w' ∧
         depthOf ProjectionRphi w' = depthOf ProjectionRphi w ∧
         depthOf ProjectionZY w' = depthOf ProjectionZY w ∧
         sceneOf SceneRphiEvent w' =
           (λ l, l ++ map (Projected ProjectionRphi (depthOf ProjectionRphi w))
                          (take NdataTypes phis))
             <$> sceneOf SceneRphiEvent w ∧
         sceneOf SceneZYEvent w' =
           (λ l, l ++ map (Projected ProjectionZY (depthOf ProjectionZY w))
                          (take NdataTypes els))
             <$> sceneOf SceneZYEvent w).
Proof.
  intros Hb Hc Hle Hlp. split; [|split].
  - intros w0 w' [Hf|Hf].
    + apply (proj1 event_registration_keeps_projections els phis w0 w' Hf).
    + apply (proj2 event_registration_keeps_projections e w0 w' Hf).
  - destruct (registerElement_registers w e cur Hb Hc)
      as (w' & E & _ & Sr & Sz & Hp).
    exists w'. unfold depthOf in *. rewrite Hp. auto.
  - destruct (registerElements_registers w els phis cur Hb Hc Hle Hlp)
      as (w' & E & _ & _ & Sz & Sr & _ & _ & _ & _ & Hp & _).
    exists w'. unfold depthOf in *. rewrite Hp. auto.
Qed.

(** ** The singleton *)

Lemma lookup_spawned {A} (l tail : list A) k :
  (l ++ tail) !! (length l + k) = tail !! k.
Proof. rewrite lookup_app_r by lia. f_equal. lia. Qed.

Lemma removeChild_added el : removeChild el ([] ++ [Direct el]) = [].
Proof.
  unfold removeChild. simpl. rewrite filter_cons.
  destruct (decide (Direct el ≠ Direct el)); [congruence|reflexivity].
Qed.

Lemma MultiView_new_constructs w :
  ∃ w', MultiView_new w = Returned tt w' ∧
        sInstance w' = Some (S (constructed w)) ∧
        constructed w' = S (constructed w) ∧
        mDetectors w' = [] ∧
        ScenesBound w' ∧
        depthOf ProjectionRphi w' = 0%Z ∧ depthOf ProjectionZY w' = 0%Z.
Proof.
  unfold MultiView_new.
  unfold bind, gets, modify, GetGlobalScene, GetEventScene, setScenePtr, ret,
    newProjectionManager, SetProjection, setupMultiview, SpawnNewScene,
    undefined.
  simpl. rewrite <- !app_assoc, !length_app. simpl.
  set (l := fSpawned (gEve w)).
  replace (length l) with (length l + 0) by lia.
  rewrite <- !Nat.add_assoc. simpl.
  assert (Hinj : ∀ a b, SpawnedScene (length l + a) = SpawnedScene (length l + b)
                        → a = b) by (intros a b [= E]; lia).
  destruct getAxesShow; simpl.
  - unfold bind, getScene, gets, AddElement, destroyLocal, withScene, ret.
    simpl.
    repeat (rewrite lookup_spawned; simpl; rewrite insert_app_r; simpl).
    eexists. split; [reflexivity|]. simpl.
    repeat (split; [reflexivity|]).
    split; [|split; reflexivity].
    split.
    + intros s. unfold sceneOf.
      destruct s; simpl; rewrite ?lookup_spawned; simpl; eauto.
    + intros s s'.
      destruct s, s'; simpl; intros E; try reflexivity; try discriminate;
        apply Hinj in E; discriminate.
  - eexists. split; [reflexivity|]. simpl.
    repeat (split; [reflexivity|]).
    split; [|split; reflexivity].
    split.
    + intros s. unfold sceneOf.
      destruct s; simpl; rewrite ?lookup_spawned; simpl; eauto.
    + intros s s'.
      destruct s, s'; simpl; intros E; try reflexivity; try discriminate;
        apply Hinj in E; discriminate.
Qed.

Lemma getInstance_first w :
  sInstance w = None →
  ∃ w', getInstance w = Returned (Some (S (constructed w))) w' ∧
        sInstance w' = Some (S (constructed w)) ∧
        constructed w' = S (constructed w) ∧
        mDetectors w' = [] ∧ ScenesBound w' ∧
        depthOf ProjectionRphi w' = 0%Z ∧ depthOf ProjectionZY w' = 0%Z.
Proof.
  intros E.
  destruct (MultiView_new_constructs w) as (w' & En & Hi & Hrest).
  exists w'. unfold getInstance, bind, gets. rewrite E, En, Hi.
  split; [reflexivity|]. split; [reflexivity|]. exact Hrest.
Qed.

Lemma run_keeps_frame cs : ∀ w w',
  is_Some (sInstance w) → finalState (run cs w) = Some w' → methodFrame w w'.
Proof.
  induction cs as [|c cs IH]; intros w w' Hi; simpl.
  - intros [= <-]. reflexivity.
  - unfold bind.
    destruct (exec c w) as [[] w1|k w1|] eqn:E; simpl; try discriminate.
    + intros Hf.
      assert (F1 : methodFrame w w1)
        by (apply (exec_keeps_frame c); [exact Hi|rewrite E; reflexivity]).
      transitivity w1; [exact F1|].
      apply IH; [exact (frame_instance _ _ F1 Hi)|exact Hf].
    + intros [= <-].
      apply (exec_keeps_frame c); [exact Hi|rewrite E; reflexivity].
Qed.

(** C9: with no object yet, [getInstance] constructs one, stores its
    address in [sInstance] and returns it; with an object, it returns the
    stored address and changes nothing; and no run of calls, started with an
    object, changes [sInstance] or constructs another object, in whatever
    state the run leaves the process. *)
Theorem getInstance_singleton w a cs w' :
  (sInstance w = None →
   ∃ w1, getInstance w = Returned (Some (S (constructed w))) w1 ∧
         sInstance w1 = Some (S (constructed w)) ∧
         constructed w1 = S (constructed w)) ∧
  (sInstance w = Some a → getInstance w = Returned (Some a) w) ∧
  (sInstance w = Some a → finalState (run cs w) = Some w' →
   sInstance w' = Some a ∧ constructed w' = constructed w ∧
   getInstance w' = Returned (Some a) w') ∧
  (sInstance w = None →
   finalState (run (CallGetInstance :: cs) w) = Some w' →
   sInstance w' = Some (S (constructed w)) ∧
   constructed w' = S (constructed w)).
Proof.
  split; [|split; [|split]].
  - intros E. destruct (getInstance_first w E) as (w1 & E1 & Hi & Hc & _).
    eauto.
  - apply getInstance_existing.
  - intros E Hf.
    destruct (run_keeps_frame cs w w' ltac:(rewrite E; eauto) Hf)
      as (Hi & Hc & _).
    rewrite Hi, Hc, E. repeat split.
    apply getInstance_existing. congruence.
  - intros E. simpl. unfold bind at 1. unfold bind at 1.
    destruct (getInstance_first w E) as (w1 & E1 & Hi & Hc & _).
    rewrite E1. unfold ret. intros Hf.
    destruct (run_keeps_frame cs w1 w' ltac:(rewrite Hi; eauto) Hf)
      as (Hi' & Hc' & _).
    rewrite Hi', Hc', Hi, Hc. auto.
Qed.

(** ** The lookup list *)

Lemma bind_returned {A B} (m : M A) (k : A → M B) w b w' :
  bind m k w = Returned b w' →
  ∃ a w1, m w = Returned a w1 ∧ k a w1 = Returned b w'.
Proof.
  unfold bind. destruct (m w) as [a w1| |]; try discriminate. eauto.
Qed.

Lemma keeps_lookup_methods :
  (∀ n, Keeps lookupFrame (getDetectorGeometry n)) ∧
  (∀ g t r z, Keeps lookupFrame (registerGeometry g t r z)) ∧
  (∀ e p, Keeps lookupFrame (registerElements e p)) ∧
  (∀ e, Keeps lookupFrame (registerElement e)) ∧
  Keeps lookupFrame destroyAllEvents ∧
  Keeps lookupFrame redraw3D.
Proof.
  unfold lookupFrame.
  repeat split; intros; unfold_methods; keeps_steps;
    try keeps_with keeps_findDetector; reflexivity.
Qed.

Lemma destroyAllGeometries_empties w a w' :
  destroyAllGeometries w = Returned a w' → mDetectors w' = [].
Proof.
  unfold destroyAllGeometries. intros H.
  repeat (apply bind_returned in H; destruct H as (? & ? & _ & H)).
  injection H as _ <-. reflexivity.
Qed.

Lemma drawGeometryForDetector_appends w n t r z a w' :
  drawGeometryForDetector n t r z w = Returned a w' →
  ∃ g, fst (getGeometryForDetector (geometryManager w) n) = Some g ∧
       mDetectors w' = mDetectors w ++ [Some g].
Proof.
  unfold drawGeometryForDetector. intros H.
  apply bind_returned in H. destruct H as (shape & w1 & E1 & H).
  apply bind_returned in H. destruct H as ([] & w2 & E2 & H).
  injection E1 as <- <-. injection H as _ <-.
  destruct (fst (getGeometryForDetector (geometryManager w) n)) as [g|] eqn:Eg;
    [|discriminate].
  exists g. split; [reflexivity|]. simpl.
  destruct keeps_lookup_methods as (_ & Hk & _).
  rewrite (Hk (Some g) t r z _ w2) by (rewrite E2; reflexivity).
  reflexivity.
Qed.

Lemma exec_lookup_list c w w' :
  is_Some (sInstance w) → exec c w = Returned tt w' →
  match c with
  | CallDrawGeometryForDetector n _ _ _ =>
      ∃ g, fst (getGeometryForDetector (geometryManager w) n) = Some g ∧
           mDetectors w' = mDetectors w ++ [Some g]
  | CallDestroyAllGeometries => mDetectors w' = []
  | _ => mDetectors w' = mDetectors w
  end.
Proof.
  intros [i Hi] Hx.
  destruct keeps_lookup_methods as (K1 & K2 & K3 & K4 & K5 & K6).
  destruct c; simpl in Hx;
    try (apply onInstance_returns in Hx; destruct Hx as (_ & a & Hx)).
  - unfold bind in Hx. rewrite (getInstance_existing w i Hi) in Hx.
    injection Hx as <-. reflexivity.
  - apply (K1 detectorName w w'). rewrite Hx. reflexivity.
  - eapply drawGeometryForDetector_appends, Hx.
  - apply (K2 geom threeD rPhi zy w w'). rewrite Hx. reflexivity.
  - eapply destroyAllGeometries_empties, Hx.
  - apply (K3 elements phiElements w w'). rewrite Hx. reflexivity.
  - apply (K4 event w w'). rewrite Hx. reflexivity.
  - apply (K5 w w'). rewrite Hx. reflexivity.
  - apply (K6 w w'). rewrite Hx. reflexivity.
Qed.

Lemma run_cons_returned c cs w w' :
  is_Some (sInstance w) → run (c :: cs) w = Returned tt w' →
  ∃ w1, exec c w = Returned tt w1 ∧ is_Some (sInstance w1) ∧
        run cs w1 = Returned tt w'.
Proof.
  intros Hi H. simpl in H.
  apply bind_returned in H. destruct H as ([] & w1 & E1 & H).
  exists w1. split; [exact E1|]. split; [|exact H].
  eapply frame_instance; [|exact Hi].
  apply (exec_keeps_frame c). { exact Hi. } rewrite E1. reflexivity.
Qed.

(** Without a teardown a run only appends to the lookup list, one non-null
    entry for each draw. *)
Lemma run_extends_lookup cs : ∀ w w',
  is_Some (sInstance w) → CallDestroyAllGeometries ∉ cs →
  run cs w = Returned tt w' →
  ∃ rest, mDetectors w' = mDetectors w ++ rest ∧
          length rest = countDraws cs.
Proof.
  induction cs as [|c cs IH]; intros w w' Hi Hn H.
  - injection H as <-. exists []. rewrite app_nil_r. auto.
  - apply not_elem_of_cons in Hn. destruct Hn as [Hc Hn].
    destruct (run_cons_returned c cs w w' Hi H) as (w1 & E1 & Hi1 & H1).
    destruct (IH w1 w' Hi1 Hn H1) as (rest & Er & Hl).
    pose proof (exec_lookup_list c w w1 Hi E1) as Hx.
    destruct c; try congruence; simpl;
      try (exists rest; rewrite Er, Hx; auto).
    destruct Hx as (g & _ & Hx).
    exists (Some g :: rest). rewrite Er, Hx, <- app_assoc. simpl. auto.
Qed.

(** C5: a run of calls without [destroyAllGeometries] that returns leaves
    the lookup list longer by the number of [drawGeometryForDetector] calls
    in it, whatever their flags; from an empty list its size is that
    number.  Each such call, on bound scenes and with a shape resolved,
    returns and appends exactly one entry. *)
Theorem lookup_list_counts_draws cs w w' :
  is_Some (sInstance w) → CallDestroyAllGeometries ∉ cs →
  run cs w = Returned tt w' →
  length (mDetectors w') = length (mDetectors w) + countDraws cs ∧
  (mDetectors w = [] → length (mDetectors w') = countDraws cs) ∧
  (∀ n g t r z,
     ScenesBound w →
     fst (getGeometryForDetector (geometryManager w) n) = Some g →
     ∃ w1, drawGeometryForDetector n t r z w = Returned tt w1 ∧
           length (mDetectors w1) = S (length (mDetectors w))).
Proof.
  intros Hi Hn H.
  destruct (run_extends_lookup cs w w' Hi Hn H) as (rest & Er & Hl).
  assert (Hlen : length (mDetectors w') = length (mDetectors w) + countDraws cs)
    by (rewrite Er, length_app, Hl; reflexivity).
  split; [exact Hlen|]. split.
  - intros E. rewrite Hlen, E. reflexivity.
  - intros n g t r z Hb Hg.
    destruct (drawGeometryForDetector_draws w n g t r z Hb Hg)
      as (w1 & E1 & _ & _ & Hd & _).
    exists w1. split; [exact E1|].
    rewrite Hd, length_app. simpl. lia.
Qed.

(** ** Lookup by name *)

Lemma findDetector_scan X l w :
  findDetector X (map Some l) w = Returned (firstNamed X l) w.
Proof.
  induction l as [|g l IH]; simpl; [reflexivity|].
  destruct (decide (GetElementName g = X)); [reflexivity|exact IH].
Qed.

Lemma firstNamed_Some X l g :
  firstNamed X l = Some g ↔
  ∃ l1 l2, l = l1 ++ g :: l2 ∧ GetElementName g = X ∧
           Forall (λ g', GetElementName g' ≠ X) l1.
Proof.
  induction l as [|h l IH]; simpl.
  - split; [discriminate|]. intros (l1 & l2 & E & _). destruct l1; discriminate.
  - destruct (decide (GetElementName h = X)) as [Hh|Hh].
    + split.
      * intros [= <-]. exists [], l. auto.
      * intros ([|h' l1] & l2 & E & Hg & Hf); simpl in E.
        -- congruence.
        -- injection E as <- _. apply Forall_cons in Hf. tauto.
    + rewrite IH. split.
      * intros (l1 & l2 & -> & Hg & Hf). exists (h :: l1), l2. auto.
      * intros ([|h' l1] & l2 & E & Hg & Hf); simpl in E.
        -- congruence.
        -- injection E as <- ->. apply Forall_cons in Hf.
           exists l1, l2. tauto.
Qed.

Lemma firstNamed_None X l :
  firstNamed X l = None ↔ Forall (λ g', GetElementName g' ≠ X) l.
Proof.
  induction l as [|h l IH]; simpl.
  - split; auto.
  - destruct (decide (GetElementName h = X)) as [Hh|Hh].
    + split; [discriminate|]. intros Hf. apply Forall_cons in Hf. tauto.
    + rewrite IH. split.
      * intros Hf. apply Forall_cons. auto.
      * intros Hf. apply Forall_cons in Hf. tauto.
Qed.

Lemma findDetector_none X l w :
  NoneNamed X l → findDetector X l w = Returned None w.
Proof.
  induction 1 as [|o l (g & -> & Hg) _ IH]; simpl; [reflexivity|].
  destruct (decide (GetElementName g = X)); [contradiction|exact IH].
Qed.

Lemma findDetector_first X pre g rest w :
  NoneNamed X pre → GetElementName g = X →
  findDetector X (pre ++ Some g :: rest) w = Returned (Some g) w.
Proof.
  intros Hp Hg. induction Hp as [|o l (h & -> & Hh) _ IH]; simpl.
  - destruct (decide (GetElementName g = X)); [reflexivity|contradiction].
  - destruct (decide (GetElementName h = X)); [contradiction|exact IH].
Qed.

Lemma run_none_named X cs : ∀ w w',
  NamesShapes → is_Some (sInstance w) → NoneNamed X (mDetectors w) →
  Forall (λ c, drawsName X c = false) cs →
  run cs w = Returned tt w' →
  NoneNamed X (mDetectors w').
Proof.
  induction cs as [|c cs IH]; intros w w' Hn Hi Hw Hcs H.
  - injection H as <-. exact Hw.
  - apply Forall_cons in Hcs. destruct Hcs as [Hc Hcs].
    destruct (run_cons_returned c cs w w' Hi H) as (w1 & E1 & Hi1 & H1).
    apply (IH w1 w' Hn Hi1); [|exact Hcs|exact H1].
    pose proof (exec_lookup_list c w w1 Hi E1) as Hx.
    destruct c; try (rewrite Hx; exact Hw).
    + destruct Hx as (g & Hg & ->).
      apply Forall_app. split; [exact Hw|].
      apply Forall_cons. split; [|constructor].
      exists g. split; [reflexivity|].
      rewrite (Hn _ _ _ Hg). simpl in Hc.
      apply bool_decide_eq_false in Hc. exact Hc.
    + rewrite Hx. constructor.
Qed.

(** C3: [getDetectorGeometry] scans the lookup list from the front and
    returns the first shape whose element name is the one asked for, or
    null when there is none, without changing the state.  From an empty
    list (an object just constructed, or just after
    [destroyAllGeometries]) and with a geometry manager that names its
    shapes after the detector: after a run with no draw of [X] the lookup
    of [X] is null; after a draw of [X] that was the first one since the
    list was empty, followed by calls without a teardown, the lookup of [X]
    is the very shape resolved by that draw, whether or not [X] is drawn
    again later. *)
Theorem getDetectorGeometry_first_registered X w :
  NamesShapes → is_Some (sInstance w) → mDetectors w = [] →
  (∀ l w0, mDetectors w0 = map Some l →
     getDetectorGeometry X w0 = Returned (firstNamed X l) w0 ∧
     (∀ g, firstNamed X l = Some g ↔
           ∃ l1 l2, l = l1 ++ g :: l2 ∧ GetElementName g = X ∧
                    Forall (λ g', GetElementName g' ≠ X) l1) ∧
     (firstNamed X l = None ↔ Forall (λ g', GetElementName g' ≠ X) l)) ∧
  (∀ cs w', Forall (λ c, drawsName X c = false) cs →
     run cs w = Returned tt w' →
     getDetectorGeometry X w' = Returned None w') ∧
  (∀ cs1 cs2 t r z w1 w' g,
     Forall (λ c, drawsName X c = false) cs1 →
     run cs1 w = Returned tt w1 →
     fst (getGeometryForDetector (geometryManager w1) X) = Some g →
     CallDestroyAllGeometries ∉ cs2 →
     run (CallDrawGeometryForDetector X t r z :: cs2) w1 = Returned tt w' →
     getDetectorGeometry X w' = Returned (Some g) w') ∧
  (∀ w0 a w1, destroyAllGeometries w0 = Returned a w1 → mDetectors w1 = []) ∧
  (∀ w0, sInstance w0 = None →
     ∃ a w1, getInstance w0 = Returned a w1 ∧ mDetectors w1 = []).
Proof.
  intros Hn Hi He.
  assert (Hw : NoneNamed X (mDetectors w)) by (rewrite He; constructor).
  split; [|split; [|split; [|split]]].
  - intros l w0 E. split; [|split].
    + unfold getDetectorGeometry, bind, gets. rewrite E.
      apply findDetector_scan.
    + intros g. apply firstNamed_Some.
    + apply firstNamed_None.
  - intros cs w' Hcs H.
    unfold getDetectorGeometry, bind, gets.
    apply findDetector_none. exact (run_none_named X cs w w' Hn Hi Hw Hcs H).
  - intros cs1 cs2 t r z w1 w' g Hcs1 H1 Hg Hn2 H2.
    assert (Hw1 : NoneNamed X (mDetectors w1))
      by exact (run_none_named X cs1 w w1 Hn Hi Hw Hcs1 H1).
    assert (Hi1 : is_Some (sInstance w1)).
    { eapply frame_instance; [|exact Hi].
      apply (run_keeps_frame cs1). { exact Hi. } rewrite H1. reflexivity. }
    destruct (run_cons_returned _ cs2 w1 w' Hi1 H2) as (w2 & E2 & Hi2 & H3).
    pose proof (exec_lookup_list _ w1 w2 Hi1 E2) as (g' & Hg' & Hd2).
    simpl in Hg'. rewrite Hg in Hg'. injection Hg' as <-.
    destruct (run_extends_lookup cs2 w2 w' Hi2 Hn2 H3) as (rest & Er & _).
    unfold getDetectorGeometry, bind, gets.
    rewrite Er, Hd2, <- app_assoc. simpl.
    apply findDetector_first; [exact Hw1|]. exact (Hn _ _ _ Hg).
  - apply destroyAllGeometries_empties.
  - intros w0 E0.
    destruct (getInstance_first w0 E0) as (w1 & E1 & _ & _ & Hd & _). eauto.
Qed.

(** * Further properties *)

(** ** Logging and exit *)

Lemma quiet_ret {A} (a : A) : Quiet (ret a).
Proof. intros w. reflexivity. Qed.

Lemma quiet_gets {A} (f : State → A) : Quiet (gets f).
Proof. intros w. reflexivity. Qed.

Lemma quiet_undefined {A} : Quiet (@undefined _ A).
Proof. intros w. exact I. Qed.

Lemma quiet_modify f : (∀ w, logged (f w) = logged w) → Quiet (modify f).
Proof. intros Hf w. apply Hf. Qed.

Lemma quiet_bind {A B} (m : M A) (k : A → M B) :
  Quiet m → (∀ a, Quiet (k a)) → Quiet (bind m k).
Proof.
  intros Hm Hk w. unfold bind. specialize (Hm w).
  destruct (m w) as [a w1|c w1|]; [|exact Hm|exact I].
  specialize (Hk a w1). rewrite <- Hm.
  destruct (k a w1); exact Hk.
Qed.

Lemma quiet_when b m : Quiet m → Quiet (when b m).
Proof. destruct b; [trivial|intros _; apply quiet_ret]. Qed.

Lemma quiet_forRange from count body :
  (∀ i, Quiet (body i)) → Quiet (forRange from count body).
Proof.
  intros Hb. revert from. induction count as [|n IH]; intros from; simpl.
  - apply quiet_ret.
  - apply quiet_bind; [apply Hb|intros _; apply IH].
Qed.

Lemma quiet_readArray {A} (a : list A) i : Quiet (readArray a i).
Proof.
  unfold readArray. destruct (a !! i); [apply quiet_ret|apply quiet_undefined].
Qed.

Lemma quiet_withScene h f : Quiet (withScene h f).
Proof.
  intros w. unfold withScene.
  destruct (sceneChildren h (gEve w)); [reflexivity|exact I].
Qed.

Lemma quiet_withCurrentEvent f : Quiet (withCurrentEvent f).
Proof.
  intros w. unfold withCurrentEvent.
  destruct (fCurrentEvent (gEve w)); [reflexivity|exact I].
Qed.

Lemma quiet_resolve n : Quiet (GeometryManager_getGeometryForDetector n).
Proof. intros w. reflexivity. Qed.

Lemma quiet_spawn : Quiet SpawnNewScene.
Proof. intros w. reflexivity. Qed.

Lemma quiet_findDetector n l : Quiet (findDetector n l).
Proof.
  induction l as [|[g|] l IH]; simpl.
  - apply quiet_ret.
  - destruct (decide _); [apply quiet_ret|apply IH].
  - apply quiet_undefined.
Qed.

Ltac quiet_steps :=
  repeat first
    [ apply quiet_bind; [|intros ?]
    | apply quiet_ret | apply quiet_gets | apply quiet_undefined
    | apply quiet_readArray | apply quiet_when
    | apply quiet_forRange; intros ?
    | apply quiet_withScene | apply quiet_withCurrentEvent
    | apply quiet_resolve | apply quiet_spawn | apply quiet_findDetector
    | apply quiet_modify; intros ?; reflexivity
    | match goal with |- Quiet (match ?x with _ => _ end) => destruct x end
    | progress unfold getDetectorGeometry, destroyAllGeometries,
        registerElements, registerElement, destroyAllEvents, redraw3D,
        getScene, getProjection, AddElement, DestroyElements, ImportElements,
        GetCurrentDepth, SetCurrentDepth, GetCurrentEvent,
        CurrentEvent_AddElement, CurrentEvent_RemoveElements,
        GetGlobalScene, GetEventScene, setScenePtr, newProjectionManager,
        SetProjection, setupMultiview
    | assumption ].

Lemma quiet_registerGeometry g t r z : Quiet (registerGeometry g t r z).
Proof.
  destruct g as [g|].
  - unfold registerGeometry. quiet_steps.
  - intros w. simpl. split; reflexivity.
Qed.

Lemma quiet_drawGeometryForDetector n t r z :
  Quiet (drawGeometryForDetector n t r z).
Proof.
  unfold drawGeometryForDetector. quiet_steps. apply quiet_registerGeometry.
Qed.

Lemma quiet_getInstance : Quiet getInstance.
Proof. unfold getInstance, MultiView_new. quiet_steps. Qed.

Lemma quiet_exec c : Quiet (exec c).
Proof.
  destruct c; simpl; unfold onInstance; quiet_steps;
    first [ apply quiet_getInstance | apply quiet_registerGeometry
          | apply quiet_drawGeometryForDetector | idtac ].
Qed.

Lemma quiet_run cs : Quiet (run cs).
Proof.
  induction cs as [|c cs IH]; simpl; [apply quiet_ret|].
  apply quiet_bind; [apply quiet_exec|intros _; exact IH].
Qed.

(** X1: a run of calls that returns has logged nothing, and a run that
    exits has exit code -1 and has logged exactly the null-geometry
    message; from any state. *)
Theorem run_logs_only_on_exit cs w :
  (∀ w', run cs w = Returned tt w' → logged w' = logged w) ∧
  (∀ c w', run cs w = Exited c w' →
           c = (-1)%Z ∧ logged w' = logged w ++ [nullMessage]).
Proof.
  pose proof (quiet_run cs w) as Hq.
  split.
  - intros w' E. rewrite E in Hq. exact Hq.
  - intros c w' E. rewrite E in Hq. exact Hq.
Qed.

(** ** Invariants of a run *)

#[local] Instance eventKept_preorder : PreOrder eventKept.
Proof.
  split; unfold eventKept; [intros w; tauto|intros a b c; tauto].
Qed.

Lemma method_keeps_event {A} (m : M A) : IsMethod m → Keeps eventKept m.
Proof.
  destruct 1; unfold_methods; keeps_steps;
    try keeps_with keeps_findDetector;
    unfold eventKept; simpl; rewrite ?fCurrentEvent_set; eauto.
Qed.

Lemma onInstance_run {A} (m : M A) w i :
  sInstance w = Some i → onInstance m w = bind m (λ _, ret tt) w.
Proof. intros E. unfold onInstance, bind at 1, gets. rewrite E. reflexivity. Qed.

Lemma exec_keeps_event c w w' :
  is_Some (sInstance w) → finalState (exec c w) = Some w' → eventKept w w'.
Proof.
  intros [a Ha].
  destruct c; simpl;
    try (apply onInstance_keeps; [apply _|]; apply method_keeps_event;
         constructor).
  unfold bind. rewrite (getInstance_existing w a Ha). simpl.
  intros [= <-]. reflexivity.
Qed.

Lemma findDetector_total X l w :
  Forall is_Some l →
  ∃ r, findDetector X l w = Returned r w ∧
       (∀ g, r = Some g → GetElementName g = X ∧ Some g ∈ l) ∧
       (r = None → NoneNamed X l).
Proof.
  induction 1 as [|o l [g ->] _ (r & E & Hr & Hnone)]; simpl.
  - exists None. split; [reflexivity|]. split; [discriminate|].
    intros _. constructor.
  - destruct (decide (GetElementName g = X)) as [Hg|Hg].
    + exists (Some g). split; [reflexivity|]. split; [|discriminate].
      intros g' [= <-]. split; [exact Hg|apply elem_of_cons; auto].
    + exists r. split; [exact E|]. split.
      * intros g' Hg'. destruct (Hr g' Hg') as [Hn Hin].
        split; [exact Hn|apply elem_of_cons; auto].
      * intros Hnil. apply Forall_cons. split; [|exact (Hnone Hnil)].
        exists g. split; [reflexivity|exact Hg].
Qed.

Lemma destroyAllEvents_effect w :
  ScenesBound w →
  ∃ w', destroyAllEvents w = Returned tt w' ∧
        sceneOf SceneRphiEvent w' = Some [] ∧
        sceneOf SceneZYEvent w' = Some [] ∧
        fCurrentEvent (gEve w') = (λ _, []) <$> fCurrentEvent (gEve w) ∧
        sceneOf Scene3dEvent w' = sceneOf Scene3dEvent w ∧
        sceneOf Scene3dGeom w' = sceneOf Scene3dGeom w ∧
        sceneOf SceneRphiGeom w' = sceneOf SceneRphiGeom w ∧
        sceneOf SceneZYGeom w' = sceneOf SceneZYGeom w ∧
        mProjections w' = mProjections w ∧
        mDetectors w' = mDetectors w ∧
        logged w' = logged w ∧
        ScenesBound w'.
Proof.
  intros Hb.
  assert (H : ∃ w', destroyAllEvents w = Returned tt w' ∧
        sceneOf SceneRphiEvent w' = Some [] ∧
        sceneOf SceneZYEvent w' = Some [] ∧
        fCurrentEvent (gEve w') = (λ _, []) <$> fCurrentEvent (gEve w) ∧
        sceneOf Scene3dEvent w' = sceneOf Scene3dEvent w ∧
        sceneOf Scene3dGeom w' = sceneOf Scene3dGeom w ∧
        sceneOf SceneRphiGeom w' = sceneOf SceneRphiGeom w ∧
        sceneOf SceneZYGeom w' = sceneOf SceneZYGeom w ∧
        mProjections w' = mProjections w ∧
        mDetectors w' = mDetectors w ∧
        logged w' = logged w).
  { pose proof Hb as Hb'. bound_slots Hb'.
    destruct (fCurrentEvent (gEve w)) as [cur|] eqn:Ec;
      run_method; rewrite ?Ec; run_method;
      (eexists; split; [reflexivity|]); run_method; rewrite ?Ec; auto 14. }
  destruct H as (w' & E & H). exists w'. split; [exact E|].
  assert (Hb' : ScenesBound w').
  { eapply bound_kept; [|exact Hb].
    apply (method_keeps_frame _ is_destroyAllEvents). rewrite E. reflexivity. }
  tauto.
Qed.

Lemma drawGeometryForDetector_null w n t r z :
  fst (getGeometryForDetector (geometryManager w) n) = None →
  drawGeometryForDetector n t r z w =
  Exited (-1)
    (set_logged (logged w ++ [nullMessage])
       (set_geometryManager
          (snd (getGeometryForDetector (geometryManager w) n)) w)).
Proof.
  intros Hn.
  unfold drawGeometryForDetector, GeometryManager_getGeometryForDetector.
  unfold bind at 1. rewrite Hn. reflexivity.
Qed.

Lemma exec_wellformed c w w' :
  WellFormed w → exec c w = Returned tt w' → WellFormed w'.
Proof.
  intros (Hi & Hb & Hn & He) E.
  assert (Hf : methodFrame w w')
    by (apply (exec_keeps_frame c); [exact Hi|rewrite E; reflexivity]).
  split; [exact (frame_instance _ _ Hf Hi)|].
  split; [exact (bound_kept _ _ Hf Hb)|].
  split.
  - pose proof (exec_lookup_list c w w' Hi E) as Hx.
    unfold DetectorsNonNull in *.
    destruct c; try (rewrite Hx; exact Hn).
    + destruct Hx as (g & _ & ->). apply Forall_app. split; [exact Hn|].
      apply Forall_cons. split; [eauto|constructor].
    + rewrite Hx. constructor.
  - apply (exec_keeps_event c w w' Hi); [rewrite E; reflexivity|exact He].
Qed.

(** The outcome of one call on a well-formed state: it returns, or it exits
    with code -1 because a shape was null. *)
Lemma exec_outcome c w :
  WellFormed w → CallOk c →
  (∃ w', exec c w = Returned tt w') ∨
  (∃ w', exec c w = Exited (-1) w' ∧
         (registersNull c = true ∨
          ∃ n t r z, c = CallDrawGeometryForDetector n t r z ∧
                     fst (getGeometryForDetector (geometryManager w) n)
                       = None)).
Proof.
  intros ([i Hi] & Hb & Hn & [cur Hc]) Hok.
  destruct c; simpl; rewrite ?(onInstance_run _ w i Hi); unfold bind.
  - rewrite (getInstance_existing w i Hi). left. eauto.
  - unfold getDetectorGeometry, bind, gets.
    destruct (findDetector_total detectorName (mDetectors w) w Hn)
      as (r & -> & _).
    left. eauto.
  - destruct (fst (getGeometryForDetector (geometryManager w) detectorName))
      as [g|] eqn:Eg.
    + destruct (drawGeometryForDetector_draws w detectorName g threeD rPhi zy
                  Hb Eg) as (w' & -> & _).
      left. eauto.
    + rewrite (drawGeometryForDetector_null w detectorName threeD rPhi zy Eg).
      right. eexists. split; [reflexivity|]. right. eauto 8.
  - destruct geom as [g|].
    + destruct (registerGeometry_registers w g threeD rPhi zy Hb)
        as (w' & -> & _).
      left. eauto.
    + right. simpl. eauto.
  - rewrite (proj1 (destroyAllGeometries_cleared w Hb)). left. eauto.
  - destruct Hok as [Hle Hlp].
    destruct (registerElements_registers w elements phiElements cur Hb Hc
                Hle Hlp) as (w' & -> & _).
    left. eauto.
  - destruct (registerElement_registers w event cur Hb Hc) as (w' & -> & _).
    left. eauto.
  - destruct (destroyAllEvents_effect w Hb) as (w' & -> & _).
    left. eauto.
  - left. simpl. eauto.
Qed.

Lemma run_outcome cs : ∀ w,
  WellFormed w → Forall CallOk cs →
  (∃ w', run cs w = Returned tt w' ∧ WellFormed w') ∨
  (∃ w', run cs w = Exited (-1) w').
Proof.
  induction cs as [|c cs IH]; intros w Hw Hok; simpl.
  - left. eauto.
  - apply Forall_cons in Hok. destruct Hok as [Hc Hcs].
    unfold bind.
    destruct (exec_outcome c w Hw Hc) as [(w1 & E)|(w1 & E & _)]; rewrite E.
    + apply IH; [exact (exec_wellformed c w w1 Hw E)|exact Hcs].
    + right. eauto.
Qed.

(** On a well-formed state a run of calls whose element arrays hold a slot
    for every data type is defined. *)
Lemma run_never_undefined cs w :
  WellFormed w → Forall CallOk cs →
  run cs w ≠ Undefined ∧
  (∀ w', run cs w = Returned tt w' → WellFormed w') ∧
  (∀ c w', run cs w = Exited c w' → c = (-1)%Z).
Proof.
  intros Hw Hok.
  destruct (run_outcome cs w Hw Hok) as [(w1 & E & Hw1)|(w1 & E)];
    rewrite E; (split; [discriminate|split]); try discriminate.
  - intros w' [= <-]. exact Hw1.
  - intros c w' [= <- _]. reflexivity.
Qed.


Lemma keeps_projections_methods :
  (∀ n, Keeps (unchanged mProjections) (getDetectorGeometry n)) ∧
  Keeps (unchanged mProjections) destroyAllGeometries ∧
  (∀ e p, Keeps (unchanged mProjections) (registerElements e p)) ∧
  (∀ e, Keeps (unchanged mProjections) (registerElement e)) ∧
  Keeps (unchanged mProjections) destroyAllEvents ∧
  Keeps (unchanged mProjections) redraw3D.
Proof.
  repeat split; intros; unfold_methods; keeps_steps;
    try keeps_with keeps_findDetector; reflexivity.
Qed.

Lemma registerGeometry_returned g t r z w a w' :
  ScenesBound w → registerGeometry g t r z w = Returned a w' →
  ∃ s, g = Some s ∧ Registered s t r z w w'.
Proof.
  intros Hb E. destruct g as [s|]; [|discriminate].
  destruct (registerGeometry_registers w s t r z Hb) as (w2 & E2 & R2 & _).
  rewrite E2 in E. injection E as _ <-. eauto.
Qed.

Lemma drawGeometryForDetector_returned n t r z w a w' :
  ScenesBound w → drawGeometryForDetector n t r z w = Returned a w' →
  ∃ s, fst (getGeometryForDetector (geometryManager w) n) = Some s ∧
       Registered s t r z w w'.
Proof.
  intros Hb E.
  destruct (drawGeometryForDetector_appends w n t r z a w' E) as (s & Hs & _).
  destruct (drawGeometryForDetector_draws w n s t r z Hb Hs)
    as (w2 & E2 & R2 & _).
  rewrite E2 in E. injection E as _ <-. eauto.
Qed.

Lemma exec_keeps_depth_zero c w w' :
  is_Some (sInstance w) → ScenesBound w →
  depthOf ProjectionRphi w = 0%Z → depthOf ProjectionZY w = 0%Z →
  exec c w = Returned tt w' →
  depthOf ProjectionRphi w' = 0%Z ∧ depthOf ProjectionZY w' = 0%Z.
Proof.
  intros [i Hi] Hb Hr Hz Hx.
  destruct keeps_projections_methods as (K1 & K2 & K3 & K4 & K5 & K6).
  assert (Hsame : mProjections w' = mProjections w →
                  depthOf ProjectionRphi w' = 0%Z ∧
                  depthOf ProjectionZY w' = 0%Z)
    by (unfold depthOf in *; intros ->; auto).
  assert (Hreg : ∀ s t r z, Registered s t r z w w' →
                  depthOf ProjectionRphi w' = 0%Z ∧
                  depthOf ProjectionZY w' = 0%Z).
  { intros s t r z (_ & _ & _ & _ & _ & _ & Dr & Dz & _).
    rewrite Dr, Dz. destruct r, z; auto. }
  destruct c; simpl in Hx;
    try (apply onInstance_returns in Hx; destruct Hx as (_ & a & Hx)).
  - unfold bind in Hx. rewrite (getInstance_existing w i Hi) in Hx.
    injection Hx as <-. auto.
  - apply Hsame, (K1 detectorName w w'). rewrite Hx. reflexivity.
  - destruct (drawGeometryForDetector_returned _ _ _ _ _ _ _ Hb Hx)
      as (s & _ & R). eapply Hreg, R.
  - destruct (registerGeometry_returned _ _ _ _ _ _ _ Hb Hx) as (s & _ & R).
    eapply Hreg, R.
  - apply Hsame, (K2 w w'). rewrite Hx. reflexivity.
  - apply Hsame, (K3 elements phiElements w w'). rewrite Hx. reflexivity.
  - apply Hsame, (K4 event w w'). rewrite Hx. reflexivity.
  - apply Hsame, (K5 w w'). rewrite Hx. reflexivity.
  - apply Hsame, (K6 w w'). rewrite Hx. reflexivity.
Qed.

(** What holds of a state and is kept by every call that returns holds of
    every state the application sees. *)
Lemma observed_invariant (P : State → Prop) :
  (∀ c w w', P w → exec c w = Returned tt w' → P w') →
  ∀ cs w i w1, P w → observed cs w !! i = Some w1 → P w1.
Proof.
  intros Hstep. induction cs as [|c cs IH]; intros w i w1 Hp; simpl;
    [discriminate|].
  destruct (exec c w) as [[] w2| |] eqn:E; try discriminate.
  destruct i as [|i]; simpl.
  - intros [= <-]. eapply Hstep; eauto.
  - apply IH. eapply Hstep; eauto.
Qed.

(** X4: started on an object with bound scenes and both projection
    managers at depth 0 (as the constructor leaves them), every state the
    application sees between calls has both managers at depth 0; on such a
    state a registration leaves each depth equal to its value before the
    call. *)
Theorem depth_zero_between_calls cs w i w1 :
  is_Some (sInstance w) → ScenesBound w →
  depthOf ProjectionRphi w = 0%Z → depthOf ProjectionZY w = 0%Z →
  observed cs w !! i = Some w1 →
  depthOf ProjectionRphi w1 = 0%Z ∧ depthOf ProjectionZY w1 = 0%Z ∧
  ∀ g t r z w2,
    registerGeometry g t r z w1 = Returned tt w2 →
    depthOf ProjectionRphi w2 = depthOf ProjectionRphi w1 ∧
    depthOf ProjectionZY w2 = depthOf ProjectionZY w1.
Proof.
  intros Hi Hb Hr Hz Ho.
  assert (Hinv : is_Some (sInstance w1) ∧ ScenesBound w1 ∧
                 depthOf ProjectionRphi w1 = 0%Z ∧
                 depthOf ProjectionZY w1 = 0%Z).
  { apply (observed_invariant
             (λ s, is_Some (sInstance s) ∧ ScenesBound s ∧
                   depthOf ProjectionRphi s = 0%Z ∧
                   depthOf ProjectionZY s = 0%Z)) with cs w i; auto.
    intros c s s' (Hsi & Hsb & Hsr & Hsz) E.
    assert (Hf : methodFrame s s')
      by (apply (exec_keeps_frame c); [exact Hsi|rewrite E; reflexivity]).
    split; [exact (frame_instance _ _ Hf Hsi)|].
    split; [exact (bound_kept _ _ Hf Hsb)|].
    exact (exec_keeps_depth_zero c s s' Hsi Hsb Hsr Hsz E). }
  destruct Hinv as (_ & Hb1 & Hr1 & Hz1).
  split; [exact Hr1|]. split; [exact Hz1|].
  intros g t r z w2 E.
  destruct (registerGeometry_returned _ _ _ _ _ _ _ Hb1 E)
    as (s & _ & (_ & _ & _ & _ & _ & _ & Dr & Dz & _)).
  rewrite Dr, Dz, Hr1, Hz1. destruct r, z; auto.
Qed.

(** ** More on the lookup list *)

Lemma run_keeps_nonnull cs : ∀ w w',
  is_Some (sInstance w) → DetectorsNonNull w →
  run cs w = Returned tt w' → DetectorsNonNull w'.
Proof.
  induction cs as [|c cs IH]; intros w w' Hi Hn H.
  - injection H as <-. exact Hn.
  - destruct (run_cons_returned c cs w w' Hi H) as (w1 & E1 & Hi1 & H1).
    apply (IH w1 w' Hi1); [|exact H1].
    pose proof (exec_lookup_list c w w1 Hi E1) as Hx.
    unfold DetectorsNonNull in *.
    destruct c; try (rewrite Hx; exact Hn).
    + destruct Hx as (g & _ & ->). apply Forall_app. split; [exact Hn|].
      apply Forall_cons. split; [eauto|constructor].
    + rewrite Hx. constructor.
Qed.

(** X5: a run that returns never leaves a null pointer in the lookup
    list, so afterwards [getDetectorGeometry] returns for every name,
    changes nothing, and a shape it returns carries the name asked for and
    is an entry of the list. *)
Theorem lookup_never_meets_null cs w w' X :
  is_Some (sInstance w) → DetectorsNonNull w →
  run cs w = Returned tt w' →
  DetectorsNonNull w' ∧
  ∃ r, getDetectorGeometry X w' = Returned r w' ∧
       ∀ g, r = Some g → GetElementName g = X ∧ Some g ∈ mDetectors w'.
Proof.
  intros Hi Hn H.
  pose proof (run_keeps_nonnull cs w w' Hi Hn H) as Hn'.
  split; [exact Hn'|].
  destruct (findDetector_total X (mDetectors w') w' Hn') as (r & E & Hr & _).
  exists r. split; [exact E|exact Hr].
Qed.

Lemma findDetector_found_prefix X l rest g w w0 w' :
  findDetector X l w = Returned (Some g) w0 →
  findDetector X (l ++ rest) w' = Returned (Some g) w'.
Proof.
  induction l as [|[h|] l IH]; simpl; try discriminate.
  destruct (decide (GetElementName h = X)); [|exact IH].
  intros [= -> _]. reflexivity.
Qed.

(** X6: a shape found under a name stays the answer for that name through
    every run without [destroyAllGeometries], whatever is drawn meanwhile;
    and with a geometry manager that names its shapes after the detector, a
    draw that returns makes the name it drew findable. *)
Theorem lookup_stable_until_teardown cs w w' X g :
  is_Some (sInstance w) → CallDestroyAllGeometries ∉ cs →
  run cs w = Returned tt w' →
  (getDetectorGeometry X w = Returned (Some g) w →
   getDetectorGeometry X w' = Returned (Some g) w') ∧
  (NamesShapes → DetectorsNonNull w →
   ∀ t r z w2, drawGeometryForDetector X t r z w' = Returned tt w2 →
     ∃ s, getDetectorGeometry X w2 = Returned (Some s) w2 ∧
          GetElementName s = X).
Proof.
  intros Hi Hn H. split.
  - destruct (run_extends_lookup cs w w' Hi Hn H) as (rest & Er & _).
    unfold getDetectorGeometry, bind, gets. rewrite Er.
    apply findDetector_found_prefix.
  - intros Hnames Hnn t r z w2 E.
    pose proof (run_keeps_nonnull cs w w' Hi Hnn H) as Hn'.
    destruct (drawGeometryForDetector_appends w' X t r z tt w2 E)
      as (s0 & Hs0 & Hd).
    assert (Hn2 : Forall is_Some (mDetectors w2)).
    { rewrite Hd. apply Forall_app. split; [exact Hn'|].
      apply Forall_cons. split; [eauto|constructor]. }
    destruct (findDetector_total X (mDetectors w2) w2 Hn2)
      as ([s|] & Es & Hs & Hnone).
    + exists s. split; [exact Es|]. exact (proj1 (Hs s eq_refl)).
    + exfalso. specialize (Hnone eq_refl). rewrite Hd in Hnone.
      apply Forall_app in Hnone. destruct Hnone as [_ Hlast].
      apply Forall_cons in Hlast. destruct Hlast as [(s & [= <-] & Hne) _].
      apply Hne. exact (Hnames _ _ _ Hs0).
Qed.

(** ** Teardown, once more *)

Lemma setSceneChildren_id h l e :
  sceneChildren h e = Some l → setSceneChildren h l e = e.
Proof.
  destruct e as [g v sp c]. destruct h as [| |k]; simpl.
  - intros [= ->]. reflexivity.
  - intros [= ->]. reflexivity.
  - intros E. f_equal. apply list_insert_id, E.
Qed.

Lemma set_gEve_id w : set_gEve (gEve w) w = w.
Proof. destruct w. reflexivity. Qed.

Lemma geometriesCleared_bound w : ScenesBound w → ScenesBound (geometriesCleared w).
Proof.
  intros Hb. eapply bound_kept; [|exact Hb].
  apply (method_keeps_frame _ is_destroyAllGeometries).
  rewrite (proj1 (destroyAllGeometries_cleared w Hb)). reflexivity.
Qed.

Lemma geometriesCleared_idempotent w :
  ScenesBound w → geometriesCleared (geometriesCleared w) = geometriesCleared w.
Proof.
  intros Hb.
  destruct (destroyAllGeometries_cleared w Hb) as (_ & _ & S3 & Sr & Sz).
  pose proof (geometriesCleared_bound w Hb) as [_ Hd].
  set (w1 := geometriesCleared w) in *.
  unfold sceneOf in S3, Sr, Sz.
  unfold geometriesCleared at 1.
  rewrite (setSceneChildren_id _ _ _ S3), (setSceneChildren_id _ _ _ Sr),
    (setSceneChildren_id _ _ _ Sz), set_gEve_id.
  reflexivity.
Qed.

(** X7: [destroyAllGeometries] leaves the three event scenes, the current
    event, both projection managers, the log and the singleton as they
    were, and a second teardown right after the first changes nothing. *)
Theorem destroyAllGeometries_idempotent w :
  ScenesBound w →
  ∃ w1, destroyAllGeometries w = Returned tt w1 ∧
        destroyAllGeometries w1 = Returned tt w1 ∧
        sceneOf Scene3dEvent w1 = sceneOf Scene3dEvent w ∧
        sceneOf SceneRphiEvent w1 = sceneOf SceneRphiEvent w ∧
        sceneOf SceneZYEvent w1 = sceneOf SceneZYEvent w ∧
        fCurrentEvent (gEve w1) = fCurrentEvent (gEve w) ∧
        mProjections w1 = mProjections w ∧
        logged w1 = logged w ∧
        sInstance w1 = sInstance w.
Proof.
  intros Hb. exists (geometriesCleared w).
  split; [exact (proj1 (destroyAllGeometries_cleared w Hb))|].
  split.
  - rewrite (proj1 (destroyAllGeometries_cleared _
                      (geometriesCleared_bound w Hb))).
    rewrite (geometriesCleared_idempotent w Hb). reflexivity.
  - bound_slots Hb. unfold geometriesCleared. run_method. auto 10.
Qed.

Lemma destroyAllEvents_fixed w :
  ScenesBound w →
  sceneOf SceneRphiEvent w = Some [] → sceneOf SceneZYEvent w = Some [] →
  (∀ cur, fCurrentEvent (gEve w) = Some cur → cur = []) →
  destroyAllEvents w = Returned tt w.
Proof.
  intros Hb Hr Hz Hc. pose proof Hb as [_ Hd]. unfold sceneOf in Hr, Hz.
  assert (Hne : mScenes w SceneZYEvent ≠ mScenes w SceneRphiEvent)
    by (apply slot_ne; [exact Hd|discriminate]).
  destruct (fCurrentEvent (gEve w)) as [cur|] eqn:Ec.
  - rewrite (Hc cur eq_refl) in Ec.
    assert (He : mkEve (fGlobalScene (gEve w)) (fEventScene (gEve w))
                       (fSpawned (gEve w)) (Some []) = gEve w)
      by (destruct (gEve w); simpl in *; congruence).
    unfold destroyAllEvents, bind, GetCurrentEvent, gets, when,
      CurrentEvent_RemoveElements, withCurrentEvent, getScene,
      DestroyElements, withScene.
    rewrite Ec. simpl. rewrite Ec, He, set_gEve_id, Hr.
    rewrite (setSceneChildren_id _ _ _ Hr), set_gEve_id, Hz.
    rewrite (setSceneChildren_id _ _ _ Hz), set_gEve_id. reflexivity.
  - unfold destroyAllEvents, bind, GetCurrentEvent, gets, when, ret, getScene,
      DestroyElements, withScene.
    rewrite Ec. simpl. rewrite Hr. simpl.
    rewrite (setSceneChildren_id _ _ _ Hr), set_gEve_id, Hz.
    rewrite (setSceneChildren_id _ _ _ Hz), set_gEve_id. reflexivity.
Qed.

(** X8: [destroyAllEvents] leaves the slot of the 3D event scene, the log
    and the projection managers untouched (it empties the engine's current
    event, not the scene in the slot), and a second call right after the
    first changes nothing. *)
Theorem destroyAllEvents_idempotent w :
  ScenesBound w →
  ∃ w1, destroyAllEvents w = Returned tt w1 ∧
        destroyAllEvents w1 = Returned tt w1 ∧
        sceneOf Scene3dEvent w1 = sceneOf Scene3dEvent w ∧
        mProjections w1 = mProjections w ∧
        logged w1 = logged w.
Proof.
  intros Hb.
  destruct (destroyAllEvents_effect w Hb)
    as (w1 & E & Sr & Sz & Hc & S3 & _ & _ & _ & Hp & _ & Hl & Hb1).
  exists w1. split; [exact E|]. split; [|auto].
  apply destroyAllEvents_fixed; try assumption.
  intros cur Ec. rewrite Hc in Ec.
  destruct (fCurrentEvent (gEve w)); simpl in Ec; congruence.
Qed.

(** X9: with a current event in the engine, [destroyAllEvents] followed by
    [registerElement] leaves exactly that one element in the current event
    and exactly its one replica in each projected event scene; without the
    teardown a second [registerElement] adds to what the first left. *)
Theorem registerElement_after_teardown w e e' cur :
  ScenesBound w → fCurrentEvent (gEve w) = Some cur →
  (∃ w1 w2, destroyAllEvents w = Returned tt w1 ∧
            registerElement e w1 = Returned tt w2 ∧
            fCurrentEvent (gEve w2) = Some [e] ∧
            sceneOf SceneRphiEvent w2 =
              Some [Projected ProjectionRphi (depthOf ProjectionRphi w) e] ∧
            sceneOf SceneZYEvent w2 =
              Some [Projected ProjectionZY (depthOf ProjectionZY w) e]) ∧
  (∃ w1 w2, registerElement e w = Returned tt w1 ∧
            registerElement e' w1 = Returned tt w2 ∧
            fCurrentEvent (gEve w2) = Some (cur ++ [e; e']) ∧
            sceneOf SceneRphiEvent w2 =
              (λ l, l ++ [Projected ProjectionRphi (depthOf ProjectionRphi w) e;
                          Projected ProjectionRphi (depthOf ProjectionRphi w) e'])
                <$> sceneOf SceneRphiEvent w).
Proof.
  intros Hb Hc. split.
  - destruct (destroyAllEvents_effect w Hb)
      as (w1 & E1 & Sr & Sz & Hc1 & _ & _ & _ & _ & Hp & _ & _ & Hb1).
    rewrite Hc in Hc1. simpl in Hc1.
    destruct (registerElement_registers w1 e [] Hb1 Hc1)
      as (w2 & E2 & Hc2 & Sr2 & Sz2 & _).
    exists w1, w2. split; [exact E1|]. split; [exact E2|].
    unfold depthOf in *. rewrite Hc2, Sr2, Sz2, Sr, Sz, Hp. auto.
  - destruct (registerElement_registers w e cur Hb Hc)
      as (w1 & E1 & Hc1 & Sr1 & _ & Hp1).
    assert (Hb1 : ScenesBound w1).
    { eapply bound_kept; [|exact Hb].
      apply (method_keeps_frame _ (is_registerElement e)).
      rewrite E1. reflexivity. }
    destruct (registerElement_registers w1 e' _ Hb1 Hc1)
      as (w2 & E2 & Hc2 & Sr2 & _).
    exists w1, w2. split; [exact E1|]. split; [exact E2|].
    unfold depthOf in *. rewrite Hc2, Sr2, Sr1, Hp1, <- app_assoc.
    split; [reflexivity|].
    destruct (sceneOf SceneRphiEvent w); simpl; [|reflexivity].
    rewrite <- app_assoc. reflexivity.
Qed.

(** X10: the whole effect of a registration of a non-null shape, for every
    combination of flags: each geometry scene whose flag is set gains
    exactly one child at its end (the shape itself in 3D, a replica made at
    depth -10 in R-Phi and Z-Y) and the others are unchanged; the depth of a
    manager is 0 if its flag is set and unchanged otherwise; the three
    event scenes, the current event, the log, the lookup list and the
    geometry manager are untouched.  [drawGeometryForDetector] has the same
    effect on scenes and depths. *)
Theorem registration_effect w g t r z :
  ScenesBound w →
  (∃ w1, registerGeometry (Some g) t r z w = Returned tt w1 ∧
         Registered g t r z w w1 ∧ ScenesBound w1 ∧
         mDetectors w1 = mDetectors w ∧
         geometryManager w1 = geometryManager w) ∧
  (∀ n, fst (getGeometryForDetector (geometryManager w) n) = Some g →
        ∃ w2, drawGeometryForDetector n t r z w = Returned tt w2 ∧
              Registered g t r z w w2 ∧ ScenesBound w2).
Proof.
  intros Hb. split.
  - destruct (registerGeometry_registers w g t r z Hb)
      as (w1 & E & R & Hb1 & Hd & Hg & _).
    eauto 8.
  - intros n Hn.
    destruct (drawGeometryForDetector_draws w n g t r z Hb Hn)
      as (w2 & E & R & Hb2 & _).
    eauto.
Qed.

(** ** Event registration at its edges *)

(** X11: [registerElement] and, when there is at least one data type,
    [registerElements] dereference the engine's current event without a
    check: with no current event the call is undefined, whatever the
    arrays; [destroyAllEvents], which checks, returns on the same state. *)
Theorem registration_needs_current_event w e els phis :
  fCurrentEvent (gEve w) = None →
  registerElement e w = Undefined ∧
  (0 < NdataTypes → registerElements els phis w = Undefined) ∧
  (ScenesBound w → ∃ w', destroyAllEvents w = Returned tt w').
Proof.
  intros Hc. split; [|split].
  - unfold registerElement, bind, CurrentEvent_AddElement, withCurrentEvent.
    rewrite Hc. reflexivity.
  - intros Hpos. unfold registerElements.
    destruct NdataTypes as [|k]; [lia|]. simpl.
    unfold bind, readArray, CurrentEvent_AddElement, withCurrentEvent.
    destruct (els !! 0); simpl; [rewrite Hc|]; reflexivity.
  - intros Hb. destruct (destroyAllEvents_effect w Hb) as (w' & E & _). eauto.
Qed.

Lemma forRange_ext body body' count : ∀ from w,
  (∀ i w1, from ≤ i < from + count → body i w1 = body' i w1) →
  forRange from count body w = forRange from count body' w.
Proof.
  induction count as [|k IH]; intros from w Hb; simpl; [reflexivity|].
  unfold bind. rewrite (Hb from w) by lia.
  destruct (body' from w) as [a w1| |]; try reflexivity.
  apply IH. intros i w2 Hi. apply Hb. lia.
Qed.

Lemma forRange_split body a b : ∀ from w,
  forRange from (a + b) body w =
  bind (forRange from a body) (λ _, forRange (from + a) b body) w.
Proof.
  induction a as [|k IH]; intros from w; simpl.
  - unfold bind, ret. rewrite Nat.add_0_r. reflexivity.
  - unfold bind.
    destruct (body from w) as [x w1| |]; try reflexivity.
    rewrite IH. unfold bind.
    replace (from + S k) with (S from + k) by lia. reflexivity.
Qed.

Lemma readArray_take {A} (a : list A) n i w :
  i < n → readArray (take n a) i w = readArray a i w.
Proof. intros Hi. unfold readArray. rewrite lookup_take_lt by exact Hi. reflexivity. Qed.

(** The first [n] rounds of the first loop of [registerElements]. *)
Lemma default_rounds w els phis cur n :
  ScenesBound w → fCurrentEvent (gEve w) = Some cur → n ≤ length els →
  ∃ w1, forRange 0 n
          (λ dataType,
             bind (readArray els dataType) (λ event,
             bind (CurrentEvent_AddElement event) (λ _,
             bind (getProjection ProjectionZY) (λ projection,
             bind (getScene SceneZYEvent) (λ scene,
             ImportElements projection event scene))))) w
        = Returned tt w1 ∧
        elementsRegistered w cur els phis n 0 w1.
Proof.
  intros Hb Hc Hle.
  apply (forRange_invariant
           (λ i w1, elementsRegistered w cur els phis i 0 w1) _ n 0 w).
  - intros i wi Hi (Hbi & Hci & Hzy & Hrphi & H3e & H3g & Hrg & Hzg & Hp & Hd).
    destruct (lookup_lt_is_Some_2 els i ltac:(lia)) as [x Hx].
    unfold readArray. rewrite Hx. unfold bind at 1, ret.
    destruct (current_event_step wi x _ Hbi Hci)
      as (w2 & E2 & Hb2 & Hc2 & Hs2 & Hp2 & Hd2).
    unfold bind at 1. rewrite E2.
    destruct (import_step w2 ProjectionZY SceneZYEvent x Hb2)
      as (w3 & E3 & Hb3 & Hs3 & Ho3 & Hc3 & Hp3 & Hd3).
    exists w3. split; [exact E3|].
    unfold elementsRegistered.
    rewrite Hs3, !Ho3, !Hs2, Hc3, Hc2, Hp3, Hp2, Hd3, Hd2 by discriminate.
    rewrite (take_S_r els i x Hx), List.map_app, Hzy.
    unfold depthOf. rewrite Hp2, Hp. simpl.
    destruct (sceneOf SceneZYEvent w); simpl; rewrite ?app_assoc; auto 12.
  - apply elementsRegistered_start; assumption.
Qed.

(** The first [m] rounds of the second loop, after the first loop. *)
Lemma phi_rounds w w1 els phis cur m :
  elementsRegistered w cur els phis NdataTypes 0 w1 → m ≤ length phis →
  ∃ w2, forRange 0 m
          (λ dataType,
             bind (readArray phis dataType) (λ event,
             bind (getProjection ProjectionRphi) (λ projection,
             bind (getScene SceneRphiEvent) (λ scene,
             ImportElements projection event scene)))) w1
        = Returned tt w2 ∧
        elementsRegistered w cur els phis NdataTypes m w2.
Proof.
  intros I1 Hle.
  apply (forRange_invariant
           (λ i w2, elementsRegistered w cur els phis NdataTypes i w2)
           _ m 0 w1); [|exact I1].
  intros i wi Hi (Hbi & Hci & Hzy & Hrphi & H3e & H3g & Hrg & Hzg & Hp & Hd).
  destruct (lookup_lt_is_Some_2 phis i ltac:(lia)) as [x Hx].
  unfold readArray. rewrite Hx. unfold bind at 1, ret.
  destruct (import_step wi ProjectionRphi SceneRphiEvent x Hbi)
    as (w3 & E3 & Hb3 & Hs3 & Ho3 & Hc3 & Hp3 & Hd3).
  exists w3. split; [exact E3|].
  unfold elementsRegistered.
  rewrite Hs3, !Ho3, Hc3, Hp3, Hd3 by discriminate.
  rewrite (take_S_r phis i x Hx), List.map_app, Hrphi.
  unfold depthOf. rewrite Hp. simpl.
  destruct (sceneOf SceneRphiEvent w); simpl; rewrite ?app_assoc; auto 12.
Qed.

Lemma bind_ext {A B} (m m' : M A) (k k' : A → M B) w :
  m w = m' w → (∀ a w1, k a w1 = k' a w1) → bind m k w = bind m' k' w.
Proof.
  intros Hm Hk. unfold bind. rewrite Hm.
  destruct (m' w); [apply Hk|reflexivity..].
Qed.

Lemma bind_returns {A B} (m : M A) (k : A → M B) w a w1 :
  m w = Returned a w1 → bind m k w = k a w1.
Proof. intros E. unfold bind. rewrite E. reflexivity. Qed.

Lemma bind_undefined {A B} (m : M A) (k : A → M B) w :
  m w = Undefined → bind m k w = Undefined.
Proof. intros E. unfold bind. rewrite E. reflexivity. Qed.

Lemma forRange_past_array {A} (a : list A) (k : A → M unit) count w :
  length a < count →
  (∃ w1, forRange 0 (length a) (λ i, bind (readArray a i) k) w
         = Returned tt w1) →
  forRange 0 count (λ i, bind (readArray a i) k) w = Undefined.
Proof.
  intros Hlt (w1 & E1).
  replace count with (length a + S (count - length a - 1)) by lia.
  rewrite forRange_split, (bind_returns _ _ _ _ _ E1). simpl.
  apply bind_undefined, bind_undefined.
  unfold readArray. rewrite (proj2 (lookup_ge_None _ _)) by lia.
  reflexivity.
Qed.

(** X12: [registerElements] reads exactly the first [NdataTypes] slots of
    each array: longer arrays give the outcome of their first [NdataTypes]
    slots, on every state; and on bound scenes with a current event, an
    array with fewer slots makes the call read outside it, which is
    undefined. *)
Theorem registerElements_reads_NdataTypes_slots w els phis cur :
  registerElements els phis w =
    registerElements (take NdataTypes els) (take NdataTypes phis) w ∧
  (ScenesBound w → fCurrentEvent (gEve w) = Some cur →
   length els < NdataTypes ∨ length phis < NdataTypes →
   registerElements els phis w = Undefined).
Proof.
  split.
  - unfold registerElements. apply bind_ext.
    + apply forRange_ext. intros i w1 Hi. apply bind_ext; [|reflexivity].
      symmetry. apply readArray_take. lia.
    + intros _ w1. apply forRange_ext. intros i w2 Hi.
      apply bind_ext; [|reflexivity].
      symmetry. apply readArray_take. lia.
  - intros Hb Hc Hshort. unfold registerElements.
    destruct (decide (length els < NdataTypes)) as [Hs|Hs].
    + apply bind_undefined, forRange_past_array; [exact Hs|].
      destruct (default_rounds w els phis cur (length els) Hb Hc ltac:(lia))
        as (w1 & E1 & _).
      eauto.
    + destruct Hshort as [Hs'|Hs']; [lia|].
      destruct (default_rounds w els phis cur NdataTypes Hb Hc ltac:(lia))
        as (w1 & E1 & I1).
      rewrite (bind_returns _ _ _ _ _ E1).
      apply forRange_past_array; [exact Hs'|].
      destruct (phi_rounds w w1 els phis cur (length phis) I1 ltac:(lia))
        as (w2 & E2 & _).
      eauto.
Qed.

(** ** Requests with raw element pointers *)










(** ** Construction and destruction *)

Lemma MultiView_new_effect w :
  ∃ w', MultiView_new w = Returned tt w' ∧
        sInstance w' = Some (S (constructed w)) ∧
        constructed w' = S (constructed w) ∧
        mDetectors w' = [] ∧
        ScenesBound w' ∧
        mProjections w' ProjectionRphi = mkProjection kPT_RPhi 0 ∧
        mProjections w' ProjectionZY = mkProjection kPT_ZY 0 ∧
        (∀ v, mViews w' v =
              match v with
              | View3d => [mScenes w' Scene3dGeom; mScenes w' Scene3dEvent]
              | ViewRphi => [mScenes w' SceneRphiGeom; mScenes w' SceneRphiEvent]
              | ViewZY => [mScenes w' SceneZYGeom; mScenes w' SceneZYEvent]
              end) ∧
        fGlobalScene (gEve w') = fGlobalScene (gEve w) ∧
        fEventScene (gEve w') = fEventScene (gEve w) ∧
        fCurrentEvent (gEve w') = fCurrentEvent (gEve w) ∧
        (∃ fresh, fSpawned (gEve w') = fSpawned (gEve w) ++ fresh ∧
                  Forall (λ children, children = []) fresh) ∧
        logged w' = logged w ∧
        geometryManager w' = geometryManager w.
Proof.
  unfold MultiView_new.
  unfold bind, gets, modify, GetGlobalScene, GetEventScene, setScenePtr, ret,
    newProjectionManager, SetProjection, setupMultiview, SpawnNewScene,
    undefined.
  simpl. rewrite <- !app_assoc, !length_app. simpl.
  set (l := fSpawned (gEve w)).
  replace (length l) with (length l + 0) by lia.
  rewrite <- !Nat.add_assoc. simpl.
  assert (Hinj : ∀ a b, SpawnedScene (length l + a) = SpawnedScene (length l + b)
                        → a = b) by (intros a b [= E]; lia).
  destruct getAxesShow; simpl.
  - unfold bind, getScene, gets, AddElement, destroyLocal, withScene, ret.
    simpl.
    repeat (rewrite lookup_spawned; simpl; rewrite insert_app_r; simpl;
            rewrite ?removeChild_added).
    eexists. split; [reflexivity|]. simpl.
    repeat (split; [reflexivity|]).
    split.
    { split.
      * intros s. unfold sceneOf.
        destruct s; simpl; rewrite ?lookup_spawned; simpl; eauto.
      * intros s s'.
        destruct s, s'; simpl; intros E; try reflexivity; try discriminate;
          apply Hinj in E; discriminate. }
    repeat first
      [ split; [reflexivity|]
      | split; [intros v; destruct v; reflexivity|]
      | split; [eexists; split; [reflexivity|repeat constructor]|] ].
    reflexivity.
  - eexists. split; [reflexivity|]. simpl.
    repeat (split; [reflexivity|]).
    split.
    { split.
      * intros s. unfold sceneOf.
        destruct s; simpl; rewrite ?lookup_spawned; simpl; eauto.
      * intros s s'.
        destruct s, s'; simpl; intros E; try reflexivity; try discriminate;
          apply Hinj in E; discriminate. }
    repeat first
      [ split; [reflexivity|]
      | split; [intros v; destruct v; reflexivity|]
      | split; [eexists; split; [reflexivity|repeat constructor]|] ].
    reflexivity.
Qed.

Lemma getInstance_constructs w w1 :
  sInstance w = None → MultiView_new w = Returned tt w1 →
  getInstance w = Returned (sInstance w1) w1.
Proof.
  intros E En. unfold getInstance, bind, gets. rewrite E, En. reflexivity.
Qed.

(** X13: the first [getInstance] returns, whatever the engine holds: the
    new object is the singleton, its lookup list is empty, its six slots
    point to six different valid scenes, its two managers are an R-Phi and
    a Z-Y projection at depth 0; the children of the engine's global and
    event scenes, its current event and the scenes it had spawned before
    are untouched, the scenes spawned by the constructor have no children
    (the axes, when shown, are locals of the constructor and are gone with
    it), and nothing is logged.  With a current event in the engine the
    state is well formed. *)
Theorem first_getInstance_effect w :
  sInstance w = None →
  ∃ w', getInstance w = Returned (Some (S (constructed w))) w' ∧
        sInstance w' = Some (S (constructed w)) ∧
        mDetectors w' = [] ∧
        ScenesBound w' ∧
        mProjections w' ProjectionRphi = mkProjection kPT_RPhi 0 ∧
        mProjections w' ProjectionZY = mkProjection kPT_ZY 0 ∧
        fGlobalScene (gEve w') = fGlobalScene (gEve w) ∧
        fEventScene (gEve w') = fEventScene (gEve w) ∧
        fCurrentEvent (gEve w') = fCurrentEvent (gEve w) ∧
        (∃ fresh, fSpawned (gEve w') = fSpawned (gEve w) ++ fresh ∧
                  Forall (λ children, children = []) fresh) ∧
        logged w' = logged w ∧
        (is_Some (fCurrentEvent (gEve w)) → WellFormed w').
Proof.
  intros E.
  destruct (MultiView_new_effect w)
    as (w' & En & Hi & _ & Hd & Hb & Pr & Pz & _ & Hg & He & Hc & Hs & Hl & _).
  exists w'. rewrite <- Hi at 1.
  split; [exact (getInstance_constructs w w' E En)|].
  repeat (split; [assumption || reflexivity|]).
  intros Hcur. unfold WellFormed, DetectorsNonNull.
  rewrite Hi, Hd, Hc. repeat split; eauto; apply Hb.
Qed.

(** X14: after the first [getInstance] and any run of calls, in whatever
    state the run leaves the process, the scene of a slot is shown by the
    viewer of its role and by no other: the 3D viewer shows the two 3D
    scenes, the R-Phi viewer the two R-Phi scenes, the Z-Y viewer the two
    Z-Y scenes. *)
Theorem viewers_show_their_scenes w a w1 cs w2 s v :
  sInstance w = None → getInstance w = Returned a w1 →
  finalState (run cs w1) = Some w2 →
  mScenes w2 s ∈ mViews w2 v ↔ v = viewerOf s.
Proof.
  intros E Eg Hf.
  destruct (MultiView_new_effect w)
    as (w' & En & Hi & _ & _ & [_ Hd] & _ & _ & Hv & _).
  rewrite (getInstance_constructs w w' E En) in Eg. injection Eg as _ <-.
  destruct (run_keeps_frame cs w' w2 ltac:(rewrite Hi; eauto) Hf)
    as (_ & _ & Hs & Hvs & _).
  rewrite Hvs, Hs, Hv.
  destruct s, v; rewrite !elem_of_cons, elem_of_nil;
    (split;
     [ intros [H|[H|[]]]; first [reflexivity | apply Hd in H; discriminate]
     | intros H; first [discriminate | auto] ]).
Qed.

(** X16: the destructor empties the three geometry scenes and the lookup
    list and leaves [sInstance] as it was: after it, [getInstance] still
    returns the address of the destroyed object and constructs nothing. *)
Theorem destructor_keeps_sInstance w a :
  ScenesBound w → sInstance w = Some a →
  ∃ w1, MultiView_delete w = Returned tt w1 ∧
        sInstance w1 = Some a ∧
        constructed w1 = constructed w ∧
        getInstance w1 = Returned (Some a) w1 ∧
        mDetectors w1 = [] ∧
        sceneOf Scene3dGeom w1 = Some [] ∧
        sceneOf SceneRphiGeom w1 = Some [] ∧
        sceneOf SceneZYGeom w1 = Some [].
Proof.
  intros Hb Ha. unfold MultiView_delete.
  destruct (destroyAllGeometries_cleared w Hb) as (E & Hd & S3 & Sr & Sz).
  exists (geometriesCleared w). split; [exact E|].
  assert (Hi : sInstance (geometriesCleared w) = Some a) by exact Ha.
  split; [exact Hi|]. split; [reflexivity|].
  split; [exact (getInstance_existing _ a Hi)|]. auto.
Qed.

(** ** Bulk and single registration *)

Lemma registerElement_effect w e cur :
  ScenesBound w → fCurrentEvent (gEve w) = Some cur →
  ∃ w', registerElement e w = Returned tt w' ∧
        ScenesBound w' ∧
        fCurrentEvent (gEve w') = Some (cur ++ [e]) ∧
        sceneOf SceneRphiEvent w' =
          (λ l, l ++ [Projected ProjectionRphi (depthOf ProjectionRphi w) e])
            <$> sceneOf SceneRphiEvent w ∧
        sceneOf SceneZYEvent w' =
          (λ l, l ++ [Projected ProjectionZY (depthOf ProjectionZY w) e])
            <$> sceneOf SceneZYEvent w ∧
        sceneOf Scene3dEvent w' = sceneOf Scene3dEvent w ∧
        sceneOf Scene3dGeom w' = sceneOf Scene3dGeom w ∧
        sceneOf SceneRphiGeom w' = sceneOf SceneRphiGeom w ∧
        sceneOf SceneZYGeom w' = sceneOf SceneZYGeom w ∧
        mProjections w' = mProjections w ∧
        mDetectors w' = mDetectors w.
Proof.
  intros Hb Hc.
  assert (H : ∃ w', registerElement e w = Returned tt w' ∧
        fCurrentEvent (gEve w') = Some (cur ++ [e]) ∧
        sceneOf SceneRphiEvent w' =
          (λ l, l ++ [Projected ProjectionRphi (depthOf ProjectionRphi w) e])
            <$> sceneOf SceneRphiEvent w ∧
        sceneOf SceneZYEvent w' =
          (λ l, l ++ [Projected ProjectionZY (depthOf ProjectionZY w) e])
            <$> sceneOf SceneZYEvent w ∧
        sceneOf Scene3dEvent w' = sceneOf Scene3dEvent w ∧
        sceneOf Scene3dGeom w' = sceneOf Scene3dGeom w ∧
        sceneOf SceneRphiGeom w' = sceneOf SceneRphiGeom w ∧
        sceneOf SceneZYGeom w' = sceneOf SceneZYGeom w ∧
        mProjections w' = mProjections w ∧
        mDetectors w' = mDetectors w).
  { pose proof Hb as Hb'. bound_slots Hb'.
    run_method. rewrite Hc. run_method.
    eexists. split; [reflexivity|]. run_method. auto 12. }
  destruct H as (w' & E & H). exists w'. split; [exact E|].
  assert (Hb' : ScenesBound w').
  { eapply bound_kept; [|exact Hb].
    apply (method_keeps_frame _ (is_registerElement e)).
    rewrite E. reflexivity. }
  tauto.
Qed.

Lemma registerEach_registers els : ∀ w cur,
  ScenesBound w → fCurrentEvent (gEve w) = Some cur →
  ∃ w', registerEach els w = Returned tt w' ∧
        elementsRegistered w cur els els (length els) (length els) w'.
Proof.
  induction els as [|e els IH] using rev_ind; intros w cur Hb Hc.
  - exists w. split; [reflexivity|].
    apply elementsRegistered_start; assumption.
  - assert (Happ : ∀ w0, registerEach (els ++ [e]) w0 =
                         bind (registerEach els) (λ _, registerElement e) w0).
    { clear. induction els as [|x els IH]; intros w0; simpl.
      - unfold bind, ret.
        destruct (registerElement e w0) as [[] ?| |]; reflexivity.
      - unfold bind in *. destruct (registerElement x w0); try reflexivity.
        apply IH. }
    destruct (IH w cur Hb Hc)
      as (w1 & E1 & Hb1 & Hc1 & Hz1 & Hr1 & H3e & H3g & Hrg & Hzg & Hp1 & Hd1).
    rewrite take_ge in Hc1, Hz1, Hr1 by lia.
    destruct (registerElement_effect w1 e _ Hb1 Hc1)
      as (w2 & E2 & Hb2 & Hc2 & Sr2 & Sz2 & S3e & S3g & Srg & Szg & Hp2 & Hd2).
    exists w2. rewrite Happ, (bind_returns _ _ _ _ _ E1).
    split; [exact E2|].
    unfold elementsRegistered.
    rewrite !take_ge by lia.
    rewrite Hc2, Sr2, Sz2, S3e, S3g, Srg, Szg, Hp2, Hd2.
    rewrite Hz1, Hr1, H3e, H3g, Hrg, Hzg, Hp1, Hd1.
    unfold depthOf. rewrite Hp1, !List.map_app. simpl.
    split; [exact Hb2|]. split; [rewrite <- app_assoc; reflexivity|].
    destruct (sceneOf SceneZYEvent w), (sceneOf SceneRphiEvent w); simpl;
      rewrite <- ?app_assoc; auto 12.
Qed.

(** X17: with a current event in the engine and one array of [NdataTypes]
    elements given for both variants, [registerElements] and
    [registerElement] called once per element, in order, leave the same
    current event, the same six scenes, the same projection managers and
    the same lookup list. *)
Theorem bulk_registration_as_singles w els cur :
  ScenesBound w → fCurrentEvent (gEve w) = Some cur →
  length els = NdataTypes →
  ∃ w1 w2, registerElements els els w = Returned tt w1 ∧
           registerEach els w = Returned tt w2 ∧
           fCurrentEvent (gEve w1) = fCurrentEvent (gEve w2) ∧
           (∀ s, sceneOf s w1 = sceneOf s w2) ∧
           mProjections w1 = mProjections w2 ∧
           mDetectors w1 = mDetectors w2.
Proof.
  intros Hb Hc Hl.
  destruct (registerElements_registers w els els cur Hb Hc)
    as (w1 & E1 & _ & Hc1 & Hz1 & Hr1 & A1 & B1 & C1 & D1 & Hp1 & Hd1);
    [lia|lia|].
  destruct (registerEach_registers els w cur Hb Hc)
    as (w2 & E2 & _ & Hc2 & Hz2 & Hr2 & A2 & B2 & C2 & D2 & Hp2 & Hd2).
  rewrite <- Hl in Hc1, Hz1, Hr1.
  exists w1, w2. split; [exact E1|]. split; [exact E2|].
  split; [congruence|]. split; [|split; congruence].
  intros s. destruct s; congruence.
Qed.

(** ** The lookup list against the scenes *)

(** X18: the lookup list and the geometry scenes are filled independently.
    A detector drawn with all three flags false enters no scene and is
    still found by name; a shape handed to [registerGeometry] enters the
    scenes that are asked for and is not found by name, whatever its
    name. *)
Theorem lookup_list_independent_of_scenes w X g :
  ScenesBound w → NamesShapes → NoneNamed X (mDetectors w) →
  (fst (getGeometryForDetector (geometryManager w) X) = Some g →
   ∃ w1, drawGeometryForDetector X false false false w = Returned tt w1 ∧
         (∀ s, sceneOf s w1 = sceneOf s w) ∧
         getDetectorGeometry X w1 = Returned (Some g) w1) ∧
  (∃ w2, registerGeometry (Some g) true true true w = Returned tt w2 ∧
         sceneOf Scene3dGeom w2 =
           (λ l, l ++ [Direct (GeoShape g)]) <$> sceneOf Scene3dGeom w ∧
         getDetectorGeometry X w2 = Returned None w2).
Proof.
  intros Hb Hnames Hnn.
  assert (Hopt : ∀ o : option (list SceneChild), (λ l, l) <$> o = o)
    by (intros [?|]; reflexivity).
  split.
  - intros Hg.
    destruct (drawGeometryForDetector_draws w X g false false false Hb Hg)
      as (w1 & E & (S3 & Sr & Sz & E3 & Er & Ez & _) & _ & Hd & _).
    exists w1. split; [exact E|]. split.
    + simpl in *. intros s. destruct s; rewrite ?Hopt in *; assumption.
    + unfold getDetectorGeometry, bind, gets. rewrite Hd.
      apply findDetector_first; [exact Hnn|exact (Hnames _ _ _ Hg)].
  - destruct (registerGeometry_registers w g true true true Hb)
      as (w2 & E & (S3 & _) & _ & Hd & _).
    exists w2. split; [exact E|]. split; [exact S3|].
    unfold getDetectorGeometry, bind, gets. rewrite Hd.
    apply findDetector_none, Hnn.
Qed.

End Properties.

(** * The properties on a concrete process *)

Ltac bound_by_computation :=
  split;
  [ intros s; destruct s; vm_compute; eauto
  | intros s s'; destruct s, s'; vm_compute; congruence ].

Lemma processReady_bound : ScenesBound processReady.
Proof. bound_by_computation. Qed.

Lemma processDepth5_bound : ScenesBound processDepth5.
Proof. bound_by_computation. Qed.

Lemma processDrawn_bound : ScenesBound processDrawn.
Proof. bound_by_computation. Qed.

Lemma countingServices_names : @NamesShapes countingServices.
Proof.
  intros gm n g. simpl. destruct (decide (n = "")); simpl; [discriminate|].
  intros [= <-]. reflexivity.
Qed.

Ltac computed := vm_compute; reflexivity.

(** C1, as stated, fails: the R-Phi manager is at depth 5 before the
    registration of a shape into the R-Phi scene and at depth 0 after it. *)
Lemma registration_changes_nonzero_depth :
  registerGeometry (Some tpc) false true false processDepth5
    = Returned tt processDepth5Registered ∧
  depthOf ProjectionRphi processDepth5 = 5%Z ∧
  depthOf ProjectionRphi processDepth5Registered = 0%Z ∧
  depthOf ProjectionRphi processDepth5Registered
    ≠ depthOf ProjectionRphi processDepth5.
Proof.
  split; [computed|]. split; [computed|]. split; [computed|].
  vm_compute. discriminate.
Qed.

(** The depth bracket on a process whose R-Phi manager is at depth 5. *)
Lemma registration_leaves_depth_zero_witness :
  ScenesBound processDepth5 ∧
  fst (getGeometryForDetector (geometryManager processDepth5) "TPC") = Some tpc ∧
  (∃ w1, registerGeometry (Some tpc) false true false processDepth5
           = Returned tt w1 ∧
         depthOf ProjectionRphi w1 = 0%Z) ∧
  (∃ w2, drawGeometryForDetector "TPC" false true false processDepth5
           = Returned tt w2 ∧
         depthOf ProjectionRphi w2 = 0%Z).
Proof.
  assert (Hg : fst (getGeometryForDetector (geometryManager processDepth5)
                      "TPC") = Some tpc) by computed.
  split; [exact processDepth5_bound|]. split; [exact Hg|].
  destruct (registration_leaves_depth_zero processDepth5 tpc
              false true false processDepth5_bound)
    as ((w1 & E1 & Hr1 & _) & Hdraw).
  destruct (Hdraw "TPC" Hg) as (w2 & E2 & Hr2 & _).
  split.
  - exists w1. split; [exact E1|]. exact (proj1 (proj2 (Hr1 eq_refl))).
  - exists w2. split; [exact E2|]. exact (proj1 (proj2 (Hr2 eq_refl))).
Defined.

(** The detector with the empty name resolves to no shape. *)
Lemma null_shape_exits_witness :
  fst (getGeometryForDetector (geometryManager processReady) "") = None ∧
  ∃ w', drawGeometryForDetector "" true true true processReady
          = Exited (-1) w' ∧
        mDetectors w' = mDetectors processReady.
Proof.
  assert (Hg : fst (getGeometryForDetector (geometryManager processReady) "")
               = None) by computed.
  split; [exact Hg|].
  destruct (null_shape_exits processReady "" true true true)
    as (_ & Hdraw & _).
  destruct (Hdraw Hg) as (w' & E & _ & _ & Hd & _).
  exists w'. split; [exact E|exact Hd].
Defined.

Lemma sampleCalls_keep_geometries : CallDestroyAllGeometries ∉ sampleCalls.
Proof.
  unfold sampleCalls. rewrite !not_elem_of_cons.
  repeat split; try discriminate. apply not_elem_of_nil.
Qed.

(** After the sample calls the lookup of "TPC" is the shape of the first
    draw, and "MCH", never drawn, is not found. *)
Lemma getDetectorGeometry_first_registered_witness :
  @NamesShapes countingServices ∧ is_Some (sInstance processReady) ∧
  mDetectors processReady = [] ∧
  getDetectorGeometry "TPC" processAfterSample
    = Returned (Some tpc) processAfterSample ∧
  getDetectorGeometry "MCH" processAfterSample
    = Returned None processAfterSample.
Proof.
  assert (Hi : is_Some (sInstance processReady)) by (vm_compute; eauto).
  assert (He : mDetectors processReady = []) by computed.
  split; [exact countingServices_names|]. split; [exact Hi|].
  split; [exact He|].
  destruct (getDetectorGeometry_first_registered "TPC" processReady
              countingServices_names Hi He) as (_ & _ & Hfirst & _).
  destruct (getDetectorGeometry_first_registered "MCH" processReady
              countingServices_names Hi He) as (_ & Hnone & _).
  split.
  - apply (Hfirst [] (tail sampleCalls) true true true processReady).
    + constructor.
    + reflexivity.
    + computed.
    + intros Hin. apply sampleCalls_keep_geometries.
      unfold sampleCalls. apply elem_of_cons. right. exact Hin.
    + computed.
  - apply (Hnone sampleCalls).
    + repeat constructor.
    + computed.
Defined.

(** The teardown of a process that holds one detector. *)
Lemma destroyAllGeometries_clears_together_witness :
  ScenesBound processDrawn ∧
  mDetectors processDrawn = [Some tpc] ∧
  ∃ w', destroyAllGeometries processDrawn = Returned tt w' ∧
        mDetectors w' = [] ∧ sceneOf Scene3dGeom w' = Some [] ∧
        sceneOf SceneRphiGeom w' = Some [] ∧ sceneOf SceneZYGeom w' = Some [].
Proof.
  split; [exact processDrawn_bound|]. split; [computed|].
  destruct (destroyAllGeometries_clears_together processDrawn
              processDrawn_bound) as (E & Hd & H3 & Hr & Hz & _).
  exists (geometriesCleared processDrawn). auto.
Defined.

(** The sample calls hold three draws, two of them of the same detector. *)
Lemma lookup_list_counts_draws_witness :
  is_Some (sInstance processReady) ∧
  (CallDestroyAllGeometries ∉ sampleCalls) ∧
  run sampleCalls processReady = Returned tt processAfterSample ∧
  length (mDetectors processAfterSample) = 3.
Proof.
  assert (Hi : is_Some (sInstance processReady)) by (vm_compute; eauto).
  assert (Hr : run sampleCalls processReady = Returned tt processAfterSample)
    by computed.
  assert (He : mDetectors processReady = []) by computed.
  split; [exact Hi|]. split; [exact sampleCalls_keep_geometries|].
  split; [exact Hr|].
  exact (proj1 (proj2 (lookup_list_counts_draws sampleCalls processReady
                         processAfterSample Hi sampleCalls_keep_geometries Hr))
               He).
Defined.

(** Three default and three phi elements on the ready process. *)
Lemma registerElements_fills_event_scenes_witness :
  ScenesBound processReady ∧
  fCurrentEvent (gEve processReady) = Some [] ∧
  length sampleElements = @NdataTypes countingServices ∧
  length samplePhiElements = @NdataTypes countingServices ∧
  ∃ w', registerElements sampleElements samplePhiElements processReady
          = Returned tt w' ∧
        fCurrentEvent (gEve w') = Some ([] ++ sampleElements).
Proof.
  assert (Hc : fCurrentEvent (gEve processReady) = Some []) by computed.
  assert (Hl : length sampleElements = @NdataTypes countingServices)
    by computed.
  assert (Hp : length samplePhiElements = @NdataTypes countingServices)
    by computed.
  split; [exact processReady_bound|]. split; [exact Hc|].
  split; [exact Hl|]. split; [exact Hp|].
  destruct (registerElements_fills_event_scenes processReady sampleElements
              samplePhiElements [] processReady_bound Hc Hl Hp)
    as (w' & E & Hcur & _).
  exists w'. split; [exact E|exact Hcur].
Defined.

(** A draw of "TPC" into the 3D scene only. *)
Lemma threeD_only_keeps_projected_geometry_witness :
  ScenesBound processReady ∧
  fst (getGeometryForDetector (geometryManager processReady) "TPC") = Some tpc ∧
  ∃ w2, drawGeometryForDetector "TPC" true false false processReady
          = Returned tt w2 ∧
        sceneOf SceneRphiGeom w2 = sceneOf SceneRphiGeom processReady ∧
        sceneOf SceneZYGeom w2 = sceneOf SceneZYGeom processReady ∧
        mDetectors w2 = mDetectors processReady ++ [Some tpc].
Proof.
  assert (Hg : fst (getGeometryForDetector (geometryManager processReady)
                      "TPC") = Some tpc) by computed.
  split; [exact processReady_bound|]. split; [exact Hg|].
  destruct (threeD_only_keeps_projected_geometry processReady tpc
              processReady_bound) as (_ & Hdraw).
  destruct (Hdraw "TPC" Hg) as (w2 & E2 & Hr & Hz & _ & Hd).
  exists w2. split; [exact E2|].
  split; [exact Hr|]. split; [exact Hz|exact Hd].
Defined.

(** An event element registered while the R-Phi manager is at depth 5. *)
Lemma event_registration_keeps_depth_witness :
  ScenesBound processDepth5 ∧
  fCurrentEvent (gEve processDepth5) = Some [] ∧
  @NdataTypes countingServices ≤ length sampleElements ∧
  @NdataTypes countingServices ≤ length samplePhiElements ∧
  ∃ w', registerElement (EventElement 40) processDepth5 = Returned tt w' ∧
        depthOf ProjectionRphi w' = depthOf ProjectionRphi processDepth5.
Proof.
  assert (Hc : fCurrentEvent (gEve processDepth5) = Some []) by computed.
  assert (Hl : @NdataTypes countingServices ≤ length sampleElements)
    by (vm_compute; lia).
  assert (Hp : @NdataTypes countingServices ≤ length samplePhiElements)
    by (vm_compute; lia).
  split; [exact processDepth5_bound|]. split; [exact Hc|].
  split; [exact Hl|]. split; [exact Hp|].
  destruct (event_registration_keeps_depth processDepth5 sampleElements
              samplePhiElements (EventElement 40) [] processDepth5_bound
              Hc Hl Hp)
    as (_ & (w' & E & Dr & _) & _).
  exists w'. split; [exact E|exact Dr].
Defined.

(** The first access, a later access, and the sample calls. *)
Lemma getInstance_singleton_witness :
  sInstance processStart = None ∧
  sInstance processReady = Some 1 ∧
  finalState (run sampleCalls processReady) = Some processAfterSample ∧
  (∃ w1, getInstance processStart
           = Returned (Some (S (constructed processStart))) w1) ∧
  getInstance processReady = Returned (Some 1) processReady ∧
  sInstance processAfterSample = Some 1 ∧
  constructed processAfterSample = constructed processReady.
Proof.
  assert (Hs : sInstance processStart = None) by computed.
  assert (Hr : sInstance processReady = Some 1) by computed.
  assert (Hf : finalState (run sampleCalls processReady)
               = Some processAfterSample) by computed.
  split; [exact Hs|]. split; [exact Hr|]. split; [exact Hf|].
  destruct (getInstance_singleton processStart 1 sampleCalls processAfterSample)
    as (Hfirst & _).
  destruct (getInstance_singleton processReady 1 sampleCalls processAfterSample)
    as (_ & Hagain & Hrun & _).
  destruct (Hfirst Hs) as (w1 & E1 & _).
  split; [exists w1; exact E1|]. split; [exact (Hagain Hr)|].
  destruct (Hrun Hr Hf) as (Hi & Hc & _).
  split; [exact Hi|exact Hc].
Defined.

Lemma processNoEvent_bound : ScenesBound processNoEvent.
Proof. bound_by_computation. Qed.

Lemma processEventsNoCurrent_bound : ScenesBound processEventsNoCurrent.
Proof. bound_by_computation. Qed.

(** The event teardown on an engine without a current event, the two
    projected event scenes holding one replica each. *)
Lemma destroyAllEvents_clears_projected_events_witness :
  ScenesBound processEventsNoCurrent ∧
  fCurrentEvent (gEve processEventsNoCurrent) = None ∧
  sceneOf SceneRphiEvent processEventsNoCurrent
    = Some [Projected ProjectionRphi 0 (EventElement 40)] ∧
  sceneOf SceneZYEvent processEventsNoCurrent
    = Some [Projected ProjectionZY 0 (EventElement 40)] ∧
  mDetectors processEventsNoCurrent
    = [Some (mkShape 0 "TPC"); Some (mkShape 1 "ITS");
       Some (mkShape 2 "TPC")] ∧
  ∃ w', destroyAllEvents processEventsNoCurrent = Returned tt w' ∧
        sceneOf SceneRphiEvent w' = Some [] ∧
        sceneOf SceneZYEvent w' = Some [] ∧
        mDetectors w' = mDetectors processEventsNoCurrent ∧
        sceneOf Scene3dGeom w' = sceneOf Scene3dGeom processEventsNoCurrent ∧
        sceneOf SceneRphiGeom w'
          = sceneOf SceneRphiGeom processEventsNoCurrent ∧
        sceneOf SceneZYGeom w' = sceneOf SceneZYGeom processEventsNoCurrent.
Proof.
  split; [exact processEventsNoCurrent_bound|].
  split; [computed|]. split; [computed|]. split; [computed|].
  split; [computed|].
  destruct (destroyAllEvents_clears_projected_events processEventsNoCurrent
              processEventsNoCurrent_bound)
    as (w' & E & Hr & Hz & _ & Hd & H3 & Hrg & Hzg & _).
  exists w'. split; [exact E|]. split; [exact Hr|]. split; [exact Hz|].
  split; [exact Hd|]. split; [exact H3|]. split; [exact Hrg|exact Hzg].
Defined.

(** * The further properties on concrete processes *)

Lemma processAfterSample_bound : ScenesBound processAfterSample.
Proof. bound_by_computation. Qed.




Lemma sampleCalls_ok {svc : Services} : Forall CallOk sampleCalls.
Proof. repeat constructor. Qed.

(** The sample run returns and logs nothing; the run into the unknown
    detector exits with -1 and one log line. *)
Lemma run_logs_only_on_exit_witness :
  run sampleCalls processReady = Returned tt processAfterSample ∧
  run nullCalls processReady = Exited (-1) processAfterNull ∧
  logged processAfterSample = logged processReady ∧
  logged processAfterNull = logged processReady ++ [nullMessage].
Proof.
  assert (Hr : run sampleCalls processReady = Returned tt processAfterSample)
    by computed.
  assert (Hx : run nullCalls processReady = Exited (-1) processAfterNull)
    by computed.
  split; [exact Hr|]. split; [exact Hx|].
  split.
  - exact (proj1 (run_logs_only_on_exit sampleCalls processReady) _ Hr).
  - exact (proj2 (proj2 (run_logs_only_on_exit nullCalls processReady) _ _ Hx)).
Defined.




(** The state after the first call of the sample run. *)
Lemma depth_zero_between_calls_witness :
  is_Some (sInstance processReady) ∧ ScenesBound processReady ∧
  depthOf ProjectionRphi processReady = 0%Z ∧
  depthOf ProjectionZY processReady = 0%Z ∧
  observed sampleCalls processReady !! 0 = Some processSeenFirst ∧
  depthOf ProjectionRphi processSeenFirst = 0%Z ∧
  depthOf ProjectionZY processSeenFirst = 0%Z.
Proof.
  assert (Hi : is_Some (sInstance processReady)) by (vm_compute; eauto).
  assert (Hr : depthOf ProjectionRphi processReady = 0%Z) by computed.
  assert (Hz : depthOf ProjectionZY processReady = 0%Z) by computed.
  assert (Ho : observed sampleCalls processReady !! 0 = Some processSeenFirst)
    by computed.
  split; [exact Hi|]. split; [exact processReady_bound|].
  split; [exact Hr|]. split; [exact Hz|]. split; [exact Ho|].
  destruct (depth_zero_between_calls sampleCalls processReady 0
              processSeenFirst Hi processReady_bound Hr Hz Ho)
    as (Hr1 & Hz1 & _).
  split; [exact Hr1|exact Hz1].
Defined.

(** The lookup of "TPC" after the sample run. *)
Lemma lookup_never_meets_null_witness :
  is_Some (sInstance processReady) ∧ DetectorsNonNull processReady ∧
  run sampleCalls processReady = Returned tt processAfterSample ∧
  ∃ r, getDetectorGeometry "TPC" processAfterSample
         = Returned r processAfterSample.
Proof.
  assert (Hi : is_Some (sInstance processReady)) by (vm_compute; eauto).
  assert (Hn : DetectorsNonNull processReady) by (vm_compute; constructor).
  assert (Hr : run sampleCalls processReady = Returned tt processAfterSample)
    by computed.
  split; [exact Hi|]. split; [exact Hn|]. split; [exact Hr|].
  destruct (lookup_never_meets_null sampleCalls processReady
              processAfterSample "TPC" Hi Hn Hr) as (_ & r & E & _).
  exists r. exact E.
Defined.

(** "TPC", found after the first draw, is still the same shape after a
    second draw of "TPC". *)
Lemma lookup_stable_until_teardown_witness :
  is_Some (sInstance processDrawn) ∧
  (CallDestroyAllGeometries ∉ tail sampleCalls) ∧
  run (tail sampleCalls) processDrawn = Returned tt processAfterLater ∧
  getDetectorGeometry "TPC" processDrawn = Returned (Some tpc) processDrawn ∧
  getDetectorGeometry "TPC" processAfterLater
    = Returned (Some tpc) processAfterLater.
Proof.
  assert (Hi : is_Some (sInstance processDrawn)) by (vm_compute; eauto).
  assert (Hn : CallDestroyAllGeometries ∉ tail sampleCalls).
  { intros Hin. apply sampleCalls_keep_geometries.
    unfold sampleCalls. apply elem_of_cons. right. exact Hin. }
  assert (Hr : run (tail sampleCalls) processDrawn
               = Returned tt processAfterLater) by computed.
  assert (Hl : getDetectorGeometry "TPC" processDrawn
               = Returned (Some tpc) processDrawn) by computed.
  split; [exact Hi|]. split; [exact Hn|]. split; [exact Hr|].
  split; [exact Hl|].
  exact (proj1 (lookup_stable_until_teardown (tail sampleCalls) processDrawn
                  processAfterLater "TPC" tpc Hi Hn Hr) Hl).
Defined.

(** Two teardowns of a process that holds one detector. *)
Lemma destroyAllGeometries_idempotent_witness :
  ScenesBound processDrawn ∧
  ∃ w1, destroyAllGeometries processDrawn = Returned tt w1 ∧
        destroyAllGeometries w1 = Returned tt w1.
Proof.
  split; [exact processDrawn_bound|].
  destruct (destroyAllGeometries_idempotent processDrawn processDrawn_bound)
    as (w1 & E1 & E2 & _).
  exists w1. split; [exact E1|exact E2].
Defined.

(** Two event teardowns after the sample run. *)
Lemma destroyAllEvents_idempotent_witness :
  ScenesBound processAfterSample ∧
  ∃ w1, destroyAllEvents processAfterSample = Returned tt w1 ∧
        destroyAllEvents w1 = Returned tt w1.
Proof.
  split; [exact processAfterSample_bound|].
  destruct (destroyAllEvents_idempotent processAfterSample
              processAfterSample_bound) as (w1 & E1 & E2 & _).
  exists w1. split; [exact E1|exact E2].
Defined.

(** After the sample run the current event holds one element; a teardown
    and a registration leave exactly the new one. *)
Lemma registerElement_after_teardown_witness :
  ScenesBound processAfterSample ∧
  fCurrentEvent (gEve processAfterSample) = Some [EventElement 40] ∧
  ∃ w1 w2, destroyAllEvents processAfterSample = Returned tt w1 ∧
           registerElement (EventElement 41) w1 = Returned tt w2 ∧
           fCurrentEvent (gEve w2) = Some [EventElement 41].
Proof.
  assert (Hc : fCurrentEvent (gEve processAfterSample)
               = Some [EventElement 40]) by computed.
  split; [exact processAfterSample_bound|]. split; [exact Hc|].
  destruct (registerElement_after_teardown processAfterSample
              (EventElement 41) (EventElement 42) [EventElement 40]
              processAfterSample_bound Hc)
    as ((w1 & w2 & E1 & E2 & Hc2 & _) & _).
  exists w1, w2. split; [exact E1|]. split; [exact E2|exact Hc2].
Defined.

(** The registration of "TPC" into the R-Phi scene only. *)
Lemma registration_effect_witness :
  ScenesBound processReady ∧
  ∃ w1, registerGeometry (Some tpc) false true false processReady
          = Returned tt w1 ∧
        Registered tpc false true false processReady w1.
Proof.
  split; [exact processReady_bound|].
  destruct (registration_effect processReady tpc false true false
              processReady_bound) as ((w1 & E & R & _) & _).
  exists w1. split; [exact E|exact R].
Defined.

(** An engine without a current event. *)
Lemma registration_needs_current_event_witness :
  fCurrentEvent (gEve processNoEvent) = None ∧
  0 < @NdataTypes countingServices ∧
  registerElement (EventElement 40) processNoEvent = Undefined ∧
  registerElements sampleElements samplePhiElements processNoEvent
    = Undefined.
Proof.
  assert (Hc : fCurrentEvent (gEve processNoEvent) = None) by computed.
  assert (Hp : 0 < @NdataTypes countingServices) by (vm_compute; lia).
  split; [exact Hc|]. split; [exact Hp|].
  destruct (registration_needs_current_event processNoEvent (EventElement 40)
              sampleElements samplePhiElements Hc) as (H1 & H2 & _).
  split; [exact H1|exact (H2 Hp)].
Defined.

(** A default array of one element where three are read. *)
Lemma registerElements_reads_NdataTypes_slots_witness :
  ScenesBound processReady ∧
  fCurrentEvent (gEve processReady) = Some [] ∧
  (length shortElements < @NdataTypes countingServices ∨
   length samplePhiElements < @NdataTypes countingServices) ∧
  registerElements shortElements samplePhiElements processReady = Undefined.
Proof.
  assert (Hc : fCurrentEvent (gEve processReady) = Some []) by computed.
  assert (Hs : length shortElements < @NdataTypes countingServices ∨
               length samplePhiElements < @NdataTypes countingServices)
    by (left; vm_compute; lia).
  split; [exact processReady_bound|]. split; [exact Hc|]. split; [exact Hs|].
  exact (proj2 (registerElements_reads_NdataTypes_slots processReady
                  shortElements samplePhiElements []) processReady_bound Hc Hs).
Defined.

(** The first access in the starting process, with the axes shown. *)
Lemma first_getInstance_effect_witness :
  sInstance processStart = None ∧
  @getAxesShow countingServices = true ∧
  ∃ w', getInstance processStart
          = Returned (Some (S (constructed processStart))) w' ∧
        ScenesBound w' ∧ mDetectors w' = [] ∧
        ∃ fresh, fSpawned (gEve w') = fSpawned (gEve processStart) ++ fresh ∧
                 Forall (λ children, children = []) fresh.
Proof.
  assert (Hs : sInstance processStart = None) by computed.
  split; [exact Hs|]. split; [reflexivity|].
  destruct (first_getInstance_effect processStart Hs)
    as (w' & E & _ & Hd & Hb & _ & _ & _ & _ & _ & Hf & _).
  exists w'. split; [exact E|]. split; [exact Hb|]. split; [exact Hd|exact Hf].
Defined.

(** The R-Phi geometry scene after the sample run is shown by the R-Phi
    viewer. *)
Lemma viewers_show_their_scenes_witness :
  sInstance processStart = None ∧
  getInstance processStart = Returned (Some 1) processReady ∧
  finalState (run sampleCalls processReady) = Some processAfterSample ∧
  mScenes processAfterSample SceneRphiGeom
    ∈ mViews processAfterSample ViewRphi.
Proof.
  assert (Hs : sInstance processStart = None) by computed.
  assert (Hg : getInstance processStart = Returned (Some 1) processReady)
    by computed.
  assert (Hf : finalState (run sampleCalls processReady)
               = Some processAfterSample) by computed.
  split; [exact Hs|]. split; [exact Hg|]. split; [exact Hf|].
  exact (proj2 (viewers_show_their_scenes processStart (Some 1) processReady
                  sampleCalls processAfterSample SceneRphiGeom ViewRphi
                  Hs Hg Hf) eq_refl).
Defined.

(** The destructor on a process that holds one detector. *)
Lemma destructor_keeps_sInstance_witness :
  ScenesBound processDrawn ∧ sInstance processDrawn = Some 1 ∧
  ∃ w1, MultiView_delete processDrawn = Returned tt w1 ∧
        getInstance w1 = Returned (Some 1) w1.
Proof.
  assert (Ha : sInstance processDrawn = Some 1) by computed.
  split; [exact processDrawn_bound|]. split; [exact Ha|].
  destruct (destructor_keeps_sInstance processDrawn 1 processDrawn_bound Ha)
    as (w1 & E & _ & _ & Eg & _).
  exists w1. split; [exact E|exact Eg].
Defined.

(** Three elements, in bulk and one by one. *)
Lemma bulk_registration_as_singles_witness :
  ScenesBound processReady ∧
  fCurrentEvent (gEve processReady) = Some [] ∧
  length sampleElements = @NdataTypes countingServices ∧
  ∃ w1 w2, registerElements sampleElements sampleElements processReady
             = Returned tt w1 ∧
           registerEach sampleElements processReady = Returned tt w2 ∧
           ∀ s, sceneOf s w1 = sceneOf s w2.
Proof.
  assert (Hc : fCurrentEvent (gEve processReady) = Some []) by computed.
  assert (Hl : length sampleElements = @NdataTypes countingServices)
    by computed.
  split; [exact processReady_bound|]. split; [exact Hc|]. split; [exact Hl|].
  destruct (bulk_registration_as_singles processReady sampleElements []
              processReady_bound Hc Hl) as (w1 & w2 & E1 & E2 & _ & Hs & _).
  exists w1, w2. split; [exact E1|]. split; [exact E2|exact Hs].
Defined.

(** "ITS" drawn into no scene on the ready process. *)
Lemma lookup_list_independent_of_scenes_witness :
  ScenesBound processReady ∧ @NamesShapes countingServices ∧
  NoneNamed "ITS" (mDetectors processReady) ∧
  fst (getGeometryForDetector (geometryManager processReady) "ITS")
    = Some (mkShape 0 "ITS") ∧
  ∃ w1, drawGeometryForDetector "ITS" false false false processReady
          = Returned tt w1 ∧
        (∀ s, sceneOf s w1 = sceneOf s processReady) ∧
        getDetectorGeometry "ITS" w1 = Returned (Some (mkShape 0 "ITS")) w1.
Proof.
  assert (Hn : NoneNamed "ITS" (mDetectors processReady))
    by (vm_compute; constructor).
  assert (Hg : fst (getGeometryForDetector (geometryManager processReady)
                      "ITS") = Some (mkShape 0 "ITS")) by computed.
  split; [exact processReady_bound|]. split; [exact countingServices_names|].
  split; [exact Hn|]. split; [exact Hg|].
  exact (proj1 (lookup_list_independent_of_scenes processReady "ITS"
                  (mkShape 0 "ITS") processReady_bound countingServices_names
                  Hn) Hg).
Defined.
